(** * pygoban: the GobanMaker class, embedded and checked against its specification

    The development follows [pygoban.py].  Python values are modelled as the
    interpreter has them: [int] is an unbounded integer ([Z]), [float] is an
    IEEE-754 binary64 number (the Standard Library's executable [spec_float]
    with [prec = 53], [emax = 1024]), exceptions are an explicit result, and a
    [GobanMaker] object is a record of attributes that the setters overwrite. *)

From Stdlib Require Import ZArith QArith Bool List String Ascii Lia.
From Stdlib Require Import Floats.SpecFloat DecimalString.
Import ListNotations.

Local Open Scope string_scope.
Local Open Scope list_scope.
Local Open Scope Z_scope.

(* ===================================================================== *)
(** * The Python runtime the class relies on *)
(* ===================================================================== *)

Module Py.

(** ** Exceptions and results *)

Inductive exn : Type :=
| ValueError (msg : string)
| TypeError (msg : string)
| IndexError (msg : string)
| OverflowError (msg : string)
| ZeroDivisionError (msg : string)
| AttributeError (msg : string).

Inductive result (A : Type) : Type :=
| Ok (a : A)
| Raise (e : exn).

Arguments Ok {A} a.
Arguments Raise {A} e.

Definition is_ok {A} (r : result A) : bool :=
  match r with Ok _ => true | Raise _ => false end.

(** A computation on a mutable object of type [S]: it returns the object as
    the call leaves it, together with the value or the exception.  An
    exception does not roll the object back. *)
Definition stateful (S A : Type) : Type := S -> S * result A.

Class Monad (m : Type -> Type) : Type := {
  ret : forall {A}, A -> m A;
  bind : forall {A B}, m A -> (A -> m B) -> m B
}.

#[global] Instance Monad_result : Monad result := {
  ret := fun A a => Ok a;
  bind := fun A B c k => match c with Ok a => k a | Raise e => Raise e end
}.

#[global] Instance Monad_stateful (S : Type) : Monad (stateful S) := {
  ret := fun A a s => (s, Ok a);
  bind := fun A B c k s =>
    match c s with
    | (s', Ok a) => k a s'
    | (s', Raise e) => (s', Raise e)
    end
}.

Declare Scope py_scope.
Delimit Scope py_scope with py.
Notation "x <- c ;; k" := (bind c (fun x => k))
  (at level 61, c at next level, right associativity) : py_scope.
Notation "c ;;; k" := (bind c (fun _ => k))
  (at level 61, right associativity) : py_scope.
Local Open Scope py_scope.

Definition raise {S A} (e : exn) : stateful S A := fun s => (s, Raise e).
Definition modify {S} (f : S -> S) : stateful S unit := fun s => (f s, Ok tt).
Definition lift {S A} (r : result A) : stateful S A := fun s => (s, r).

(** ** Numbers: [int] and [float] *)

Definition float : Type := spec_float.

Definition prec : Z := 53.
Definition emax : Z := 1024.

Inductive num : Type :=
| PInt (z : Z)
| PFloat (f : float).

(** The float nearest to an integer (ties to even); [float(n)] raises when
    that is beyond the largest finite float. *)
Definition float_of_int (z : Z) : result float :=
  match binary_normalize prec emax z 0 false with
  | S754_infinity _ => Raise (OverflowError "int too large to convert to float")
  | f => Ok f
  end.

Definition to_float (x : num) : result float :=
  match x with
  | PInt z => float_of_int z
  | PFloat f => Ok f
  end.

(** An integer as an exact (unrounded) operand of the division below. *)
Definition exact_operand (z : Z) : float :=
  match z with
  | Z0 => S754_zero false
  | Zpos p => S754_finite false p 0
  | Zneg p => S754_finite true p 0
  end.

(** [a / b] on two ints: the correctly rounded quotient. *)
Definition int_truediv (a b : Z) : result float :=
  if b =? 0 then Raise (ZeroDivisionError "division by zero")
  else
    match SFdiv prec emax (exact_operand a) (exact_operand b) with
    | S754_infinity _ =>
        Raise (OverflowError "integer division result too large for a float")
    | f => Ok f
    end.

Definition float_is_zero (f : float) : bool :=
  match f with S754_zero _ => true | _ => false end.

Definition num_add (x y : num) : result num :=
  match x, y with
  | PInt a, PInt b => Ok (PInt (a + b))
  | _, _ =>
      a <- to_float x ;; b <- to_float y ;; Ok (PFloat (SFadd prec emax a b))
  end.

Definition num_sub (x y : num) : result num :=
  match x, y with
  | PInt a, PInt b => Ok (PInt (a - b))
  | _, _ =>
      a <- to_float x ;; b <- to_float y ;; Ok (PFloat (SFsub prec emax a b))
  end.

Definition num_mul (x y : num) : result num :=
  match x, y with
  | PInt a, PInt b => Ok (PInt (a * b))
  | _, _ =>
      a <- to_float x ;; b <- to_float y ;; Ok (PFloat (SFmul prec emax a b))
  end.

Definition num_truediv (x y : num) : result num :=
  match x, y with
  | PInt a, PInt b => f <- int_truediv a b ;; Ok (PFloat f)
  | _, _ =>
      a <- to_float x ;; b <- to_float y ;;
      if float_is_zero b then Raise (ZeroDivisionError "float division by zero")
      else Ok (PFloat (SFdiv prec emax a b))
  end.

(** ** Comparison of numbers

    Python compares an int with a float, and two floats, by their exact
    values; every comparison with NaN is false. *)

Inductive xvalue : Type :=
| XNaN
| XInf (negative : bool)
| XFin (q : Q).

Definition float_value (f : float) : xvalue :=
  match f with
  | S754_nan => XNaN
  | S754_infinity s => XInf s
  | S754_zero _ => XFin 0
  | S754_finite s m e =>
      let n := if s then Zneg m else Zpos m in
      match e with
      | Z0 => XFin (inject_Z n)
      | Zpos k => XFin (inject_Z (n * Z.pow_pos 2 k))
      | Zneg k => XFin (Qmake n (Pos.pow 2 k))
      end
  end.

Definition num_value (x : num) : xvalue :=
  match x with
  | PInt z => XFin (inject_Z z)
  | PFloat f => float_value f
  end.

Definition xlt (u v : xvalue) : bool :=
  match u, v with
  | XNaN, _ | _, XNaN => false
  | XInf a, XInf b => a && negb b
  | XInf a, XFin _ => a
  | XFin _, XInf b => negb b
  | XFin p, XFin q => negb (Qle_bool q p)
  end.

Definition xeq (u v : xvalue) : bool :=
  match u, v with
  | XNaN, _ | _, XNaN => false
  | XInf a, XInf b => Bool.eqb a b
  | XFin p, XFin q => Qeq_bool p q
  | _, _ => false
  end.

Definition xle (u v : xvalue) : bool := xlt u v || xeq u v.

Definition num_lt (x y : num) : bool := xlt (num_value x) (num_value y).
Definition num_gt (x y : num) : bool := xlt (num_value y) (num_value x).
Definition num_eq (x y : num) : bool := xeq (num_value x) (num_value y).
Definition num_le (x y : num) : bool := num_lt x y || num_eq x y.

Definition is_nan (x : num) : bool :=
  match x with PFloat S754_nan => true | _ => false end.

Definition not_nan (w : num) : Prop := is_nan w = false.

(** [min(iterable)] and [max(iterable)]: the first item is kept until a
    later one is strictly smaller (larger). *)
Definition py_min (items : list num) : result num :=
  match items with
  | [] => Raise (ValueError "min() arg is an empty sequence")
  | first :: rest =>
      Ok (fold_left (fun best item => if num_lt item best then item else best)
            rest first)
  end.

Definition py_max (items : list num) : result num :=
  match items with
  | [] => Raise (ValueError "max() arg is an empty sequence")
  | first :: rest =>
      Ok (fold_left (fun best item => if num_gt item best then item else best)
            rest first)
  end.

(** Equality of tuples of two numbers, as [==] decides it. *)
Definition pair_eq (p q : num * num) : bool :=
  num_eq (fst p) (fst q) && num_eq (snd p) (snd q).

(** A float literal of the source: [float_lit n d] is the float nearest to
    the decimal number n/d, so [23.7] is [float_lit 237 10] and [22.] is
    [float_lit 22 1]. *)
Definition float_lit (n d : Z) : float :=
  SFdiv prec emax (exact_operand n) (exact_operand d).

(** ** Strings *)

(** [str(n)] for an int.  CPython from 3.11 on refuses an int of more than
    4300 digits with [ValueError]; the ints converted here are line numbers,
    and a statement that depends on the conversion keeps them below that. *)
Definition str_of_int (z : Z) : string := NilZero.string_of_int (Z.to_int z).

Definition str_of_nat (n : nat) : string := NilZero.string_of_uint (Nat.to_uint n).

(** A value that is [None] or a [str]. *)
Definition optstr : Type := option string.

(** [str(v)], which is also what an f-string puts for [{v}]. *)
Definition str_of_optstr (v : optstr) : string :=
  match v with
  | None => "None"
  | Some s => s
  end.

Definition optstr_eqb (a b : optstr) : bool :=
  match a, b with
  | None, None => true
  | Some s, Some t => String.eqb s t
  | _, _ => false
  end.

(** [v in items], for a list of such values. *)
Definition py_in (v : optstr) (items : list optstr) : bool :=
  existsb (optstr_eqb v) items.

(** [sep.join(items)]: every item must be a [str]. *)
Fixpoint join_from (i : nat) (sep : string) (items : list optstr)
  : result string :=
  match items with
  | [] => Ok ""
  | None :: _ =>
      Raise (TypeError ("sequence item " ++ str_of_nat i
                        ++ ": expected str instance, NoneType found"))
  | Some s :: rest =>
      match rest with
      | [] => Ok s
      | _ => tail <- join_from (S i) sep rest ;; Ok (s ++ sep ++ tail)%string
      end
  end.

Definition str_join (sep : string) (items : list optstr) : result string :=
  join_from 0 sep items.

(** [s.replace(old, new)]: every occurrence of [old], left to right, without
    overlap.  [skip] counts the characters of a replaced occurrence that are
    still to be passed over. *)
Fixpoint replace_from (old new : string) (skip : nat) (s : string) : string :=
  match s with
  | EmptyString => EmptyString
  | String c rest =>
      match skip with
      | S k => replace_from old new k rest
      | O =>
          if String.prefix old s
          then (new ++ replace_from old new (String.length old - 1) rest)%string
          else String c (replace_from old new 0 rest)
      end
  end.

Fixpoint intersperse (new : string) (s : string) : string :=
  match s with
  | EmptyString => new
  | String c rest => (new ++ String c (intersperse new rest))%string
  end.

Definition str_replace (s old new : string) : string :=
  match old with
  | EmptyString => intersperse new s
  | _ => replace_from old new 0 s
  end.

(** [s[index]]: a negative index counts from the end. *)
Definition str_index (s : string) (index : Z) : result string :=
  let n := Z.of_nat (String.length s) in
  let i := if index <? 0 then index + n else index in
  if (i <? 0) || (n <=? i) then Raise (IndexError "string index out of range")
  else
    match String.get (Z.to_nat i) s with
    | Some c => Ok (String c EmptyString)
    | None => Raise (IndexError "string index out of range")
    end.

(** [needle in haystack] for two strings. *)
Fixpoint str_contains (needle haystack : string) : bool :=
  String.prefix needle haystack ||
  match haystack with
  | EmptyString => false
  | String _ rest => str_contains needle rest
  end.

(** [string.ascii_uppercase] *)
Definition ascii_uppercase : string := "ABCDEFGHIJKLMNOPQRSTUVWXYZ".

(** [range(n)] *)
Definition range (n : Z) : list Z := map Z.of_nat (seq 0 (Z.to_nat n)).

(** A [for] loop whose body acts on a mutable object. *)
Fixpoint for_each {S A} (items : list A) (body : A -> stateful S unit)
  : stateful S unit :=
  match items with
  | [] => ret tt
  | x :: rest => body x ;;; for_each rest body
  end.

(** ** Arbitrary arguments

    The values a caller may hand to a setter that checks its argument. *)
#[warnings="-register-all"]
Inductive value : Type :=
| VNone
| VBool (b : bool)
| VInt (z : Z)
| VFloat (f : float)
| VStr (s : string)
| VTuple (items : list value)
| VList (items : list value).

(** The integer that a value is when [isinstance(v, int)] holds; [bool] is
    a subclass of [int], with [True] being 1 and [False] 0. *)
Definition int_value (v : value) : option Z :=
  match v with
  | VInt z => Some z
  | VBool b => Some (Z.b2z b)
  | _ => None
  end.

Definition is_none (v : value) : bool :=
  match v with VNone => true | _ => false end.

End Py.

Import Py.
Local Open Scope py_scope.

(* ===================================================================== *)
(** * The class [GobanMaker] *)
(* ===================================================================== *)

Module GobanMaker.

(** A grid point or a position on the board: a tuple of two numbers. *)
Definition point : Type := (num * num)%type.

(** The attributes of an object.  An attribute is [None] here until a
    setter has assigned it; reading it before that raises. *)
Record t : Type := mk {
  size : option (Z * Z);
  line_widths : option (num * num);
  line_spacing : option (float * float);
  border_spacing : option (float * float);
  star_point_pos : option value;
  star_point_diameter : option value;
  x_annotation : option optstr;
  y_annotation : option optstr;
  font_face : option value;
  font_size : option value
}.

Definition blank : t := mk None None None None None None None None None None.

Definition getattr {A} (name : string) (field : option A) : result A :=
  match field with
  | Some v => Ok v
  | None =>
      Raise (AttributeError
               ("'GobanMaker' object has no attribute '" ++ name ++ "'"))
  end.

(** [self.<attribute> = v], one function for each attribute. *)
Definition set_size v (o : t) : t :=
  mk (Some v) o.(line_widths) o.(line_spacing) o.(border_spacing)
     o.(star_point_pos) o.(star_point_diameter) o.(x_annotation)
     o.(y_annotation) o.(font_face) o.(font_size).

Definition set_widths v (o : t) : t :=
  mk o.(size) (Some v) o.(line_spacing) o.(border_spacing)
     o.(star_point_pos) o.(star_point_diameter) o.(x_annotation)
     o.(y_annotation) o.(font_face) o.(font_size).

Definition set_spacing v (o : t) : t :=
  mk o.(size) o.(line_widths) (Some v) o.(border_spacing)
     o.(star_point_pos) o.(star_point_diameter) o.(x_annotation)
     o.(y_annotation) o.(font_face) o.(font_size).

Definition set_border v (o : t) : t :=
  mk o.(size) o.(line_widths) o.(line_spacing) (Some v)
     o.(star_point_pos) o.(star_point_diameter) o.(x_annotation)
     o.(y_annotation) o.(font_face) o.(font_size).

Definition set_star_pos v (o : t) : t :=
  mk o.(size) o.(line_widths) o.(line_spacing) o.(border_spacing)
     (Some v) o.(star_point_diameter) o.(x_annotation)
     o.(y_annotation) o.(font_face) o.(font_size).

Definition set_star_diameter v (o : t) : t :=
  mk o.(size) o.(line_widths) o.(line_spacing) o.(border_spacing)
     o.(star_point_pos) (Some v) o.(x_annotation)
     o.(y_annotation) o.(font_face) o.(font_size).

Definition set_x_annotation v (o : t) : t :=
  mk o.(size) o.(line_widths) o.(line_spacing) o.(border_spacing)
     o.(star_point_pos) o.(star_point_diameter) (Some v)
     o.(y_annotation) o.(font_face) o.(font_size).

Definition set_y_annotation v (o : t) : t :=
  mk o.(size) o.(line_widths) o.(line_spacing) o.(border_spacing)
     o.(star_point_pos) o.(star_point_diameter) o.(x_annotation)
     (Some v) o.(font_face) o.(font_size).

Definition set_face v (o : t) : t :=
  mk o.(size) o.(line_widths) o.(line_spacing) o.(border_spacing)
     o.(star_point_pos) o.(star_point_diameter) o.(x_annotation)
     o.(y_annotation) (Some v) o.(font_size).

Definition set_fsize v (o : t) : t :=
  mk o.(size) o.(line_widths) o.(line_spacing) o.(border_spacing)
     o.(star_point_pos) o.(star_point_diameter) o.(x_annotation)
     o.(y_annotation) o.(font_face) (Some v).

(** A method of the class: it may assign attributes of [self] and raise. *)
Definition method (A : Type) : Type := stateful t A.

(** ** The setters *)

Definition set_board_size (size : value) : method unit :=
  match int_value size with
  | Some n => modify (set_size (n, n))
  | None =>
      match size with
      | VTuple items =>
          if negb (Nat.eqb (List.length items) 2)
          then raise (ValueError "Board size must be two-dimensional.")
          else
            match map int_value items with
            | [Some a; Some b] => modify (set_size (a, b))
            | _ =>
                raise (ValueError "Parameter size must be a tuple of integers.")
            end
      | _ => raise (ValueError "Parameter size may only be an int or a tuple.")
      end
  end.

Definition set_line_widths (line_widths : list num) : method unit :=
  lo <- lift (py_min line_widths) ;;
  hi <- lift (py_max line_widths) ;;
  modify (set_widths (lo, hi)).

Definition set_star_point_settings (star_point_pos star_point_diameter : value)
  : method unit :=
  (if negb (is_none star_point_pos)
   then modify (set_star_pos star_point_pos) else ret tt) ;;;
  (if negb (is_none star_point_diameter)
   then modify (set_star_diameter star_point_diameter) else ret tt).

Definition set_line_spacing (line_spacing : value) : method unit :=
  match line_spacing with
  | VFloat f => modify (set_spacing (f, f))
  | VTuple items =>
      if negb (Nat.eqb (List.length items) 2)
      then raise (ValueError "Parameter line_spacing must be a tuple of two values")
      else
        match items with
        | [VFloat a; VFloat b] => modify (set_spacing (a, b))
        | _ =>
            raise (ValueError "Parameter line_spacing must be a tuple of integers.")
        end
  | _ => raise (ValueError "Parameter line_spacing may only be a float or a tuple.")
  end.

Definition set_border_spacing (border_spacing : value) : method unit :=
  match border_spacing with
  | VFloat f => modify (set_border (f, f))
  | VTuple items =>
      if negb (Nat.eqb (List.length items) 2)
      then raise (ValueError "Parameter border_spacing must be a tuple of two values")
      else
        match items with
        | [VFloat a; VFloat b] => modify (set_border (a, b))
        | _ =>
            raise (ValueError "Parameter border_spacing must be a tuple of integers.")
        end
  | _ => raise (ValueError "Parameter border_spacing may only be a float or a tuple.")
  end.

Definition legal_values : list optstr :=
  [None; Some "arabic_numerals"; Some "chinese_numerals"; Some "latin_letters"].

(** The argument of the [ValueError] that [set_grid_annotation_style] builds
    for an illegal value; building it joins [legal_values], [None] included. *)
Definition annotation_error : result exn :=
  listed <- str_join ", " legal_values ;;
  Ok (ValueError ("Annotation must be one of " ++ listed ++ "."))%string.

Definition raise_annotation_error : method unit :=
  match annotation_error with
  | Ok e => raise e
  | Raise e => raise e
  end.

Definition set_grid_annotation_style (x_annotation y_annotation : optstr)
  : method unit :=
  (if py_in x_annotation legal_values
   then modify (set_x_annotation x_annotation)
   else raise_annotation_error) ;;;
  (if py_in y_annotation legal_values
   then modify (set_y_annotation y_annotation)
   else raise_annotation_error).

Definition set_font_face (font_face : value) : method unit :=
  modify (set_face font_face).

Definition set_font_size (font_size : value) : method unit :=
  modify (set_fsize font_size).

(** ** The constructor *)

Record init_args : Type := mk_args {
  arg_size : value;
  arg_line_widths : list num;
  arg_line_spacing : value;
  arg_border_spacing : value;
  arg_star_point_diameter : value;
  arg_star_point_pos : value;
  arg_x_annotation : optstr;
  arg_y_annotation : optstr;
  arg_font_face : value;
  arg_font_size : value
}.

(** The defaults of the keyword arguments. *)
Definition default_args : init_args := {|
  arg_size := VTuple [VInt 9; VInt 9];
  arg_line_widths := [PFloat (float_lit 1 1); PFloat (float_lit 2 1)];
  arg_line_spacing := VTuple [VFloat (float_lit 22 1); VFloat (float_lit 237 10)];
  arg_border_spacing := VTuple [VFloat (float_lit 11 1); VFloat (float_lit 12 1)];
  arg_star_point_diameter := VFloat (float_lit 4 1);
  arg_star_point_pos := VStr "auto";
  arg_x_annotation := None;
  arg_y_annotation := None;
  arg_font_face := VStr "Microsoft YaHei";
  arg_font_size := VInt 8
|}.

Definition __init__ (a : init_args) : method unit :=
  set_board_size a.(arg_size) ;;;
  set_line_widths a.(arg_line_widths) ;;;
  set_line_spacing a.(arg_line_spacing) ;;;
  set_border_spacing a.(arg_border_spacing) ;;;
  set_grid_annotation_style a.(arg_x_annotation) a.(arg_y_annotation) ;;;
  set_star_point_settings a.(arg_star_point_pos) a.(arg_star_point_diameter) ;;;
  set_font_face a.(arg_font_face) ;;;
  set_font_size a.(arg_font_size).

(** [GobanMaker(...)]: the new object, unless [__init__] raises. *)
Definition new (a : init_args) : result t :=
  match __init__ a blank with
  | (self, Ok _) => Ok self
  | (_, Raise e) => Raise e
  end.

(** The object of [GobanMaker()], attribute by attribute. *)
Definition default_board : t := {|
  size := Some (9, 9);
  line_widths := Some (PFloat (float_lit 1 1), PFloat (float_lit 2 1));
  line_spacing := Some (float_lit 22 1, float_lit 237 10);
  border_spacing := Some (float_lit 11 1, float_lit 12 1);
  star_point_pos := Some (VStr "auto");
  star_point_diameter := Some (VFloat (float_lit 4 1));
  x_annotation := Some None;
  y_annotation := Some None;
  font_face := Some (VStr "Microsoft YaHei");
  font_size := Some (VInt 8)
|}.

(** ** Geometry *)

Definition _get_board_dimensions (self : t) : result point :=
  width <-
    (size <- getattr "size" self.(size) ;;
     line_spacing <- getattr "line_spacing" self.(line_spacing) ;;
     grid <- num_mul (PInt (fst size - 1)) (PFloat (fst line_spacing)) ;;
     border_spacing <- getattr "border_spacing" self.(border_spacing) ;;
     border <- num_mul (PInt 2) (PFloat (fst border_spacing)) ;;
     num_add grid border) ;;
  height <-
    (size <- getattr "size" self.(size) ;;
     line_spacing <- getattr "line_spacing" self.(line_spacing) ;;
     grid <- num_mul (PInt (snd size - 1)) (PFloat (snd line_spacing)) ;;
     border_spacing <- getattr "border_spacing" self.(border_spacing) ;;
     border <- num_mul (PInt 2) (PFloat (snd border_spacing)) ;;
     num_add grid border) ;;
  Ok (width, height).

(** [(n-1)/2 +1], the expression of the source for the middle line. *)
Definition middle_pos (n : Z) : result num :=
  below <- num_sub (PInt n) (PInt 1) ;;
  half <- num_truediv below (PInt 2) ;;
  num_add half (PInt 1).

(** [n%2!=0] *)
Definition is_odd (n : Z) : bool := negb (n mod 2 =? 0).

Definition _get_auto_star_point_pos (self : t) : result (list point) :=
  size <- getattr "size" self.(size) ;;
  let star_point_pos : list point := [] in
  if (3 <=? fst size) && (3 <=? snd size) then
    let star_point_pos :=
      star_point_pos ++
      [ (PInt 3, PInt 3);
        (PInt 3, PInt (snd size - 2));
        (PInt (fst size - 2), PInt 3);
        (PInt (fst size - 2), PInt (snd size - 2)) ] in
    star_point_pos <-
      (if is_odd (fst size) && is_odd (snd size) then
         x <- middle_pos (fst size) ;;
         y <- middle_pos (snd size) ;;
         Ok (star_point_pos ++ [ (x, y) ])
       else Ok star_point_pos) ;;
    star_point_pos <-
      (if is_odd (fst size) then
         x_middle_pos <- middle_pos (fst size) ;;
         Ok (star_point_pos ++
             [ (x_middle_pos, PInt 3);
               (x_middle_pos, PInt (snd size - 2)) ])
       else Ok star_point_pos) ;;
    star_point_pos <-
      (if is_odd (snd size) then
         y_middle_pos <- middle_pos (snd size) ;;
         Ok (star_point_pos ++
             [ (PInt 3, y_middle_pos);
               (PInt (snd size - 2), y_middle_pos) ])
       else Ok star_point_pos) ;;
    Ok star_point_pos
  else Ok star_point_pos.

(** ** Annotations and the drawing context *)

(** What the object asks of the cairo context while it draws annotations.
    The calls that [_add_text] makes for one label are recorded as one
    entry. *)
Inductive draw_op : Type :=
| SelectFontFace (font_face : value)
| SetFontSize (font_size : value)
| AddText (my_text : string) (pos : point) (theta : num).

Definition context : Type := list draw_op.

Definition emit (op : draw_op) : stateful context unit :=
  modify (fun drawn => drawn ++ [op]).

(** [math.pi] *)
Definition pi : float := float_lit 3141592653589793 1000000000000000.

Section Annotations.

(** [cn2an.an2cn], of the package [cn2an]. *)
Variable an2cn : Z -> result string.

Definition _get_annotation_string (index : Z) (annotation_style : optstr)
  : result string :=
  if optstr_eqb annotation_style (Some "arabic_numerals") then
    Ok (str_of_int (index + 1))
  else if optstr_eqb annotation_style (Some "latin_letters") then
    str_index (str_replace ascii_uppercase "I" "") index
  else if optstr_eqb annotation_style (Some "chinese_numerals") then
    an2cn (index + 1)
  else
    Raise (ValueError ("Unknown annotation style '"
                       ++ str_of_optstr annotation_style ++ "' specified.")).

Definition _add_text (my_text : string) (pos : point) (theta : num)
  : stateful context unit :=
  emit (AddText my_text pos theta).

Definition _draw_annotations (self : t) : stateful context unit :=
  font_face <- lift (getattr "font_face" self.(font_face)) ;;
  emit (SelectFontFace font_face) ;;;
  font_size <- lift (getattr "font_size" self.(font_size)) ;;
  emit (SetFontSize font_size) ;;;
  let center_factor := PFloat (float_lit 3 10) in
  x_annotation <- lift (getattr "x_annotation" self.(x_annotation)) ;;
  (match x_annotation with
   | None => ret tt
   | Some _ =>
       border_spacing <- lift (getattr "border_spacing" self.(border_spacing)) ;;
       y_lower_border <-
         lift (num_mul (PFloat (snd border_spacing)) center_factor) ;;
       inner <- lift (num_sub (PInt 2) center_factor) ;;
       border <- lift (num_mul (PFloat (snd border_spacing)) inner) ;;
       size <- lift (getattr "size" self.(size)) ;;
       line_spacing <- lift (getattr "line_spacing" self.(line_spacing)) ;;
       grid <- lift (num_mul (PInt (snd size - 1)) (PFloat (snd line_spacing))) ;;
       y_upper_border <- lift (num_add border grid) ;;
       for_each (range (fst size)) (fun vertical_lines =>
         s <- lift (_get_annotation_string vertical_lines x_annotation) ;;
         step <- lift (num_mul (PInt vertical_lines) (PFloat (fst line_spacing))) ;;
         x_pos <- lift (num_add (PFloat (fst border_spacing)) step) ;;
         _add_text s (x_pos, y_lower_border) (PFloat pi) ;;;
         _add_text s (x_pos, y_upper_border) (PInt 0))
   end) ;;;
  y_annotation <- lift (getattr "y_annotation" self.(y_annotation)) ;;
  (match y_annotation with
   | None => ret tt
   | Some _ =>
       border_spacing <- lift (getattr "border_spacing" self.(border_spacing)) ;;
       x_lower_border <-
         lift (num_mul (PFloat (fst border_spacing)) center_factor) ;;
       inner <- lift (num_sub (PInt 2) center_factor) ;;
       border <- lift (num_mul (PFloat (fst border_spacing)) inner) ;;
       size <- lift (getattr "size" self.(size)) ;;
       line_spacing <- lift (getattr "line_spacing" self.(line_spacing)) ;;
       grid <- lift (num_mul (PInt (fst size - 1)) (PFloat (fst line_spacing))) ;;
       x_upper_border <- lift (num_add border grid) ;;
       for_each (range (snd size)) (fun horizontal_lines =>
         s <- lift (_get_annotation_string (snd size - horizontal_lines - 1)
                      y_annotation) ;;
         step <- lift (num_mul (PInt horizontal_lines)
                         (PFloat (snd line_spacing))) ;;
         y_pos <- lift (num_add (PFloat (snd border_spacing)) step) ;;
         _add_text s (x_lower_border, y_pos) (PFloat (float_lit 0 1)) ;;;
         _add_text s (x_upper_border, y_pos) (PFloat pi))
   end).

End Annotations.

(** A default board of the given size whose vertical lines are lettered. *)
Definition lettered_board (cols rows : Z) : t :=
  set_x_annotation (Some "latin_letters") (set_size (cols, rows) default_board).

(** Stands for [cn2an.an2cn] in examples that ask for no Chinese numeral. *)
Definition an2cn_unused : Z -> result string :=
  fun _ => Raise (ValueError "cn2an.an2cn is outside this development").

End GobanMaker.

Import GobanMaker.

(* ===================================================================== *)
(** * What the specification says, in its own words *)
(* ===================================================================== *)

Module Spec.

(** "Canvas sizing: width = (cols-1) x spacing_x + 2 x border_x;
     height = (rows-1) x spacing_y + 2 x border_y." *)
Definition canvas_extent (lines : Z) (spacing border : float) : result num :=
  grid <- num_mul (PInt (lines - 1)) (PFloat spacing) ;;
  margin <- num_mul (PInt 2) (PFloat border) ;;
  num_add grid margin.

Definition canvas_size (cols rows : Z) (spacing_x spacing_y : float)
    (border_x border_y : float) : result point :=
  width <- canvas_extent cols spacing_x border_x ;;
  height <- canvas_extent rows spacing_y border_y ;;
  Ok (width, height).

(** The nine traditional star points of a 9x9 board. *)
Definition three_three_points : list point :=
  [ (PInt 3, PInt 3); (PInt 3, PInt 7); (PInt 7, PInt 3); (PInt 7, PInt 7) ].

Definition edge_center_points : list point :=
  [ (PInt 5, PInt 3); (PInt 5, PInt 7); (PInt 3, PInt 5); (PInt 7, PInt 5) ].

Definition center_point : point := (PInt 5, PInt 5).

Definition traditional_9x9 : list point :=
  three_three_points ++ edge_center_points ++ [center_point].

(** Two lists hold the same set of points, points being compared by [==]. *)
Definition has_point (l : list point) (p : point) : bool :=
  existsb (pair_eq p) l.

Definition same_points (l1 l2 : list point) : bool :=
  forallb (has_point l2) l1 && forallb (has_point l1) l2.

Fixpoint distinct_points (l : list point) : bool :=
  match l with
  | [] => true
  | p :: rest => negb (has_point rest p) && distinct_points rest
  end.

(** "y_mid = (rows-1)/2 + 1" *)
Definition mid (n : Z) : result num :=
  half <- num_truediv (PInt (n - 1)) (PInt 2) ;;
  num_add half (PInt 1).

(** The star points of the first three placement rules: the four points
    counted from the corners, the center when both dimensions are odd, and
    the two points (x_mid, 3), (x_mid, rows-2) when the column count is
    odd. *)
Definition star_points_before_row_rule (cols rows : Z) : result (list point) :=
  let corners :=
    [ (PInt 3, PInt 3); (PInt 3, PInt (rows - 2));
      (PInt (cols - 2), PInt 3); (PInt (cols - 2), PInt (rows - 2)) ] in
  center <-
    (if Z.odd cols && Z.odd rows
     then x_mid <- mid cols ;; y_mid <- mid rows ;; Ok [ (x_mid, y_mid) ]
     else Ok []) ;;
  column_pair <-
    (if Z.odd cols
     then x_mid <- mid cols ;; Ok [ (x_mid, PInt 3); (x_mid, PInt (rows - 2)) ]
     else Ok []) ;;
  Ok (corners ++ center ++ column_pair).

(** The size arguments that the specification calls invalid: "non-integer,
    wrong tuple length, zero dimension". *)
Definition invalid_size (size : value) : bool :=
  match size with
  | VInt n => n =? 0
  | VTuple [VInt a; VInt b] => (a =? 0) || (b =? 0)
  | _ => true
  end.

(** The grid that a size argument stands for when it is an int or a pair
    of ints (a bool counting as the int it is), and nothing otherwise. *)
Definition grid_of (size : value) : option (Z * Z) :=
  match size with
  | VInt n => Some (n, n)
  | VBool b => Some (Z.b2z b, Z.b2z b)
  | VTuple [a; b] =>
      match int_value a, int_value b with
      | Some cols, Some rows => Some (cols, rows)
      | _, _ => None
      end
  | _ => None
  end.

(** "Uppercase Latin letters skipping I": the alphabet by its character
    codes, with the letter I filtered out, and its k-th member (k from 1). *)
Definition alphabet : list ascii := map ascii_of_nat (seq 65 26).

Definition letters_without_I : list ascii :=
  filter (fun c => negb (Ascii.eqb c "I"%char)) alphabet.

Definition nth_letter (k : nat) : option string :=
  match k with
  | O => None
  | S i => option_map (fun c => String c EmptyString) (nth_error letters_without_I i)
  end.

End Spec.

(* ===================================================================== *)
(** * The drawing methods of the class *)
(* ===================================================================== *)

Module Render.

(** ** Values met while drawing *)

(** [type(v).__name__] *)
Definition type_name (v : value) : string :=
  match v with
  | VNone => "NoneType"
  | VBool _ => "bool"
  | VInt _ => "int"
  | VFloat _ => "float"
  | VStr _ => "str"
  | VTuple _ => "tuple"
  | VList _ => "list"
  end.

Definition value_of_num (x : num) : value :=
  match x with
  | PInt z => VInt z
  | PFloat f => VFloat f
  end.

(** [v == s] for a string literal [s]. *)
Definition value_is_str (v : value) (s : string) : bool :=
  match v with
  | VStr t => String.eqb t s
  | _ => false
  end.

(** The characters of a string, each a string of length one. *)
Fixpoint characters (s : string) : list value :=
  match s with
  | EmptyString => []
  | String c rest => VStr (String c EmptyString) :: characters rest
  end.

(** The items that [for ... in v] goes through. *)
Definition iterate (v : value) : result (list value) :=
  match v with
  | VTuple items | VList items => Ok items
  | VStr s => Ok (characters s)
  | _ => Raise (TypeError ("'" ++ type_name v ++ "' object is not iterable"))
  end.

(** [a, b = item] *)
Definition unpack_pair (item : value) : result (value * value) :=
  match item with
  | VNone | VBool _ | VInt _ | VFloat _ =>
      Raise (TypeError ("cannot unpack non-iterable " ++ type_name item ++ " object"))
  | _ =>
      match iterate item with
      | Ok [a; b] => Ok (a, b)
      | Ok (_ :: _ :: _ :: _) =>
          Raise (ValueError "too many values to unpack (expected 2)")
      | Ok few =>
          Raise (ValueError ("not enough values to unpack (expected 2, got "
                             ++ str_of_nat (List.length few) ++ ")"))
      | Raise e => Raise e
      end
  end.

(** [v - k] for an int literal [k]. *)
Definition value_minus_int (v : value) (k : Z) : result num :=
  match v with
  | VInt z => num_sub (PInt z) (PInt k)
  | VBool b => num_sub (PInt (Z.b2z b)) (PInt k)
  | VFloat f => num_sub (PFloat f) (PInt k)
  | _ =>
      Raise (TypeError ("unsupported operand type(s) for -: '" ++ type_name v
                        ++ "' and 'int'"))
  end.

(** ** The cairo surface and context

    The calls that reach cairo, in the order they are made.  The calls of
    [_draw_annotations] are those recorded above.  What cairo does with a
    call is not part of the model: a method raises here when the Python code
    of the class raises, on its way from one call to the next. *)
Inductive cairo_call : Type :=
| SVGSurface (file_path : string) (width height : num)
| SurfaceExit
| SetDocumentUnitMM
| MakeContext
| SetLineCapRound
| SetLineWidth (width : num)
| SetSourceRgb (red green blue : num)
| MoveTo (x y : num)
| LineTo (x y : num)
| Arc (xc yc radius angle1 angle2 : num)
| ClosePath
| Stroke
| Annotation (op : draw_op).

Definition canvas : Type := list cairo_call.

Definition call (c : cairo_call) : stateful canvas unit :=
  modify (fun made => made ++ [c]).

(** A method that records its calls as [draw_op]s, run on the canvas. *)
Definition annotating {A} (c : stateful context A) : stateful canvas A :=
  fun made => let '(ops, r) := c [] in (made ++ map Annotation ops, r).

(** [with surface: body]: the surface is left when the body ends, by
    returning or by raising. *)
Definition with_surface {A} (body : stateful canvas A) : stateful canvas A :=
  fun made => let '(made', r) := body made in (made' ++ [SurfaceExit], r).

(** ** The methods *)

Definition _draw_grid (self : t) : stateful canvas unit :=
  call SetLineCapRound ;;;
  border_spacing <- lift (getattr "border_spacing" self.(border_spacing)) ;;
  let y_lower_border := PFloat (snd border_spacing) in
  size <- lift (getattr "size" self.(size)) ;;
  line_spacing <- lift (getattr "line_spacing" self.(line_spacing)) ;;
  grid <- lift (num_mul (PInt (snd size - 1)) (PFloat (snd line_spacing))) ;;
  y_upper_border <- lift (num_add (PFloat (snd border_spacing)) grid) ;;
  for_each (range (fst size)) (fun vertical_lines =>
    step <- lift (num_mul (PInt vertical_lines) (PFloat (fst line_spacing))) ;;
    x_pos <- lift (num_add (PFloat (fst border_spacing)) step) ;;
    line_widths <- lift (getattr "line_widths" self.(line_widths)) ;;
    let current_line_width :=
      if (vertical_lines =? 0) || (vertical_lines =? fst size - 1)
      then snd line_widths else fst line_widths in
    call (SetLineWidth current_line_width) ;;;
    call (MoveTo x_pos y_lower_border) ;;;
    call (LineTo x_pos y_upper_border) ;;;
    call Stroke) ;;;
  let x_lower_border := PFloat (fst border_spacing) in
  grid <- lift (num_mul (PInt (fst size - 1)) (PFloat (fst line_spacing))) ;;
  x_upper_border <- lift (num_add (PFloat (fst border_spacing)) grid) ;;
  for_each (range (snd size)) (fun horizontal_lines =>
    step <- lift (num_mul (PInt horizontal_lines) (PFloat (snd line_spacing))) ;;
    y_pos <- lift (num_add (PFloat (snd border_spacing)) step) ;;
    line_widths <- lift (getattr "line_widths" self.(line_widths)) ;;
    let current_line_width :=
      if (horizontal_lines =? 0) || (horizontal_lines =? snd size - 1)
      then snd line_widths else fst line_widths in
    call (SetLineWidth current_line_width) ;;;
    call (MoveTo x_lower_border y_pos) ;;;
    call (LineTo x_upper_border y_pos) ;;;
    call Stroke).

(** The body of the loop of [_draw_star_points]. *)
Definition draw_star_point (self : t) (item : value) : stateful canvas unit :=
  grid_pos <- lift (unpack_pair item) ;;
  let '(x_grid_pos, y_grid_pos) := grid_pos in
  border_spacing <- lift (getattr "border_spacing" self.(border_spacing)) ;;
  line_spacing <- lift (getattr "line_spacing" self.(line_spacing)) ;;
  x_lines <- lift (value_minus_int x_grid_pos 1) ;;
  x_step <- lift (num_mul (PFloat (fst line_spacing)) x_lines) ;;
  x_pos <- lift (num_add (PFloat (fst border_spacing)) x_step) ;;
  y_lines <- lift (value_minus_int y_grid_pos 1) ;;
  y_step <- lift (num_mul (PFloat (snd line_spacing)) y_lines) ;;
  y_pos <- lift (num_add (PFloat (snd border_spacing)) y_step) ;;
  call (SetLineWidth (PInt 4)) ;;;
  call (MoveTo x_pos y_pos) ;;;
  call (LineTo x_pos y_pos) ;;;
  call Stroke.

Definition _draw_star_points (self : t) : stateful canvas unit :=
  call SetLineCapRound ;;;
  chosen <- lift (getattr "star_point_pos" self.(star_point_pos)) ;;
  star_point_pos <-
    (if value_is_str chosen "auto"
     then
       auto <- lift (_get_auto_star_point_pos self) ;;
       ret (VList (map (fun p => VTuple [value_of_num (fst p); value_of_num (snd p)])
                     auto))
     else ret chosen) ;;
  items <- lift (iterate star_point_pos) ;;
  for_each items (draw_star_point self).

Definition _draw_border (self : t) : stateful canvas unit :=
  line_widths <- lift (getattr "line_widths" self.(line_widths)) ;;
  let line_width := snd line_widths in
  x <- lift (num_truediv line_width (PInt 2)) ;;
  y <- lift (num_truediv line_width (PInt 2)) ;;
  board <- lift (_get_board_dimensions self) ;;
  width <- lift (num_sub (fst board) line_width) ;;
  height <- lift (num_sub (snd board) line_width) ;;
  line_spacing <- lift (getattr "line_spacing" self.(line_spacing)) ;;
  r <- lift (num_truediv (PFloat (fst line_spacing)) (PInt 3)) ;;
  call (SetLineWidth line_width) ;;;
  call (SetSourceRgb (PInt 0) (PInt 0) (PInt 0)) ;;;
  y0 <- lift (num_add y r) ;;
  call (MoveTo x y0) ;;;
  xc <- lift (num_add x r) ;;
  yc <- lift (num_add y r) ;;
  three_pi <- lift (num_mul (PInt 3) (PFloat pi)) ;;
  angle2 <- lift (num_truediv three_pi (PInt 2)) ;;
  call (Arc xc yc r (PFloat pi) angle2) ;;;
  right <- lift (num_add x width) ;;
  xc <- lift (num_sub right r) ;;
  yc <- lift (num_add y r) ;;
  three_pi <- lift (num_mul (PInt 3) (PFloat pi)) ;;
  angle1 <- lift (num_truediv three_pi (PInt 2)) ;;
  call (Arc xc yc r angle1 (PInt 0)) ;;;
  right <- lift (num_add x width) ;;
  xc <- lift (num_sub right r) ;;
  bottom <- lift (num_add y height) ;;
  yc <- lift (num_sub bottom r) ;;
  angle2 <- lift (num_truediv (PFloat pi) (PInt 2)) ;;
  call (Arc xc yc r (PInt 0) angle2) ;;;
  xc <- lift (num_add x r) ;;
  bottom <- lift (num_add y height) ;;
  yc <- lift (num_sub bottom r) ;;
  angle1 <- lift (num_truediv (PFloat pi) (PInt 2)) ;;
  call (Arc xc yc r angle1 (PFloat pi)) ;;;
  call ClosePath ;;;
  call Stroke.

Section Rendering.

Variable an2cn : Z -> result string.

Definition create_svg_file (file_path : string) (self : t) : stateful canvas unit :=
  board <- lift (_get_board_dimensions self) ;;
  call (SVGSurface file_path (fst board) (snd board)) ;;;
  with_surface
    (call SetDocumentUnitMM ;;;
     call MakeContext ;;;
     _draw_grid self ;;;
     _draw_star_points self ;;;
     annotating (_draw_annotations an2cn self) ;;;
     _draw_border self).

End Rendering.

(** ** Use of an object: calls of its setters, one after the other

    A caller may catch what a setter raises and go on with the object. *)
Inductive setter_call : Type :=
| Call_set_board_size (size : value)
| Call_set_line_widths (line_widths : list num)
| Call_set_star_point_settings (star_point_pos star_point_diameter : value)
| Call_set_line_spacing (line_spacing : value)
| Call_set_border_spacing (border_spacing : value)
| Call_set_grid_annotation_style (x_annotation y_annotation : optstr)
| Call_set_font_face (font_face : value)
| Call_set_font_size (font_size : value).

Definition perform (c : setter_call) : method unit :=
  match c with
  | Call_set_board_size size => set_board_size size
  | Call_set_line_widths line_widths => set_line_widths line_widths
  | Call_set_star_point_settings p d => set_star_point_settings p d
  | Call_set_line_spacing line_spacing => set_line_spacing line_spacing
  | Call_set_border_spacing border_spacing => set_border_spacing border_spacing
  | Call_set_grid_annotation_style x y => set_grid_annotation_style x y
  | Call_set_font_face font_face => set_font_face font_face
  | Call_set_font_size font_size => set_font_size font_size
  end.

(** The object after a sequence of calls. *)
Definition after (calls : list setter_call) (self : t) : t :=
  fold_left (fun o c => fst (perform c o)) calls self.

(** ** What a sequence of recorded calls shows *)





(** ** Arguments and objects, by kind *)

(** The spacing that an argument stands for when it is a float or a pair
    of floats, and nothing otherwise. *)
Definition float_pair_of (v : value) : option (float * float) :=
  match v with
  | VFloat f => Some (f, f)
  | VTuple [VFloat a; VFloat b] => Some (a, b)
  | _ => None
  end.

Definition is_set {A} (field : option A) : Prop := field <> None.

Definition legal_style (field : option optstr) : Prop :=
  exists style, field = Some style /\ py_in style legal_values = true.

(** An object all of whose attributes, but for the two of the star points,
    are assigned, the annotation styles being legal ones. *)
Definition well_formed (self : t) : Prop :=
  is_set self.(size)
  /\ is_set self.(line_widths)
  /\ is_set self.(line_spacing)
  /\ is_set self.(border_spacing)
  /\ legal_style self.(x_annotation)
  /\ legal_style self.(y_annotation)
  /\ is_set self.(font_face)
  /\ is_set self.(font_size).

(** A style whose labels exist for the lines 0 to n-1: none at all, the
    numerals, or the letters on at most 25 lines. *)
Definition labelled (style : optstr) (n : Z) : Prop :=
  style = None
  \/ style = Some "arabic_numerals"
  \/ (style = Some "latin_letters" /\ n <= 25).

(** A computation that only adds calls to those already made, the same ones
    whatever was made before. *)
Definition appending {C A} (c : stateful (list C) A) : Prop :=
  forall made, c made = (made ++ fst (c []), snd (c [])).

(** The float that an int converts to, where it converts. *)
Definition float_of (z : Z) : float := binary_normalize prec emax z 0 false.

(** The constructor arguments of a call with [star_point_pos=None], the
    others being the defaults, and the object it returns. *)
Definition args_without_star_points : init_args := {|
  arg_size := default_args.(arg_size);
  arg_line_widths := default_args.(arg_line_widths);
  arg_line_spacing := default_args.(arg_line_spacing);
  arg_border_spacing := default_args.(arg_border_spacing);
  arg_star_point_diameter := default_args.(arg_star_point_diameter);
  arg_star_point_pos := VNone;
  arg_x_annotation := default_args.(arg_x_annotation);
  arg_y_annotation := default_args.(arg_y_annotation);
  arg_font_face := default_args.(arg_font_face);
  arg_font_size := default_args.(arg_font_size)
|}.

Definition board_without_star_points : t := {|
  size := default_board.(size);
  line_widths := default_board.(line_widths);
  line_spacing := default_board.(line_spacing);
  border_spacing := default_board.(border_spacing);
  star_point_pos := None;
  star_point_diameter := default_board.(star_point_diameter);
  x_annotation := default_board.(x_annotation);
  y_annotation := default_board.(y_annotation);
  font_face := default_board.(font_face);
  font_size := default_board.(font_size)
|}.

(** [border + i*spacing], for a line index that converts to a float. *)
Definition on_line (border spacing : float) (i : Z) : num :=
  PFloat (SFadd prec emax border (SFmul prec emax (float_of i) spacing)).

(** The width of line [i] among [n]: thick for the first and the last. *)
Definition width_of_line (n : Z) (thin thick : num) (i : Z) : num :=
  if (i =? 0) || (i =? n - 1) then thick else thin.

(** A grid point as the tuple of two numbers that it is in a list of star
    points. *)
Definition tuple_of_point (p : point) : value :=
  VTuple [value_of_num (fst p); value_of_num (snd p)].

(** A grid coordinate that is a float, or an int from 0 to 1001. *)
Definition placeable (g : num) : Prop :=
  match g with
  | PInt z => 0 <= z <= 1001
  | PFloat _ => True
  end.

(** [border + spacing*(g-1)], for such a coordinate. *)
Definition grid_position (border spacing : float) (g : num) : num :=
  match g with
  | PInt z =>
      PFloat (SFadd prec emax border (SFmul prec emax spacing (float_of (z - 1))))
  | PFloat f =>
      PFloat (SFadd prec emax border
                (SFmul prec emax spacing (SFsub prec emax f (float_of 1))))
  end.

(** A computation that raises nothing but exceptions of a given kind. *)
Definition raises_only {S A} (P : exn -> Prop) (c : stateful S A) : Prop :=
  forall s s' e, c s = (s', Raise e) -> P e.

Definition is_overflow (e : exn) : Prop := exists msg, e = OverflowError msg.

(** What may go wrong with the labels of a well-formed object: an index
    beyond the letters, a number beyond the floats, or what [cn2an.an2cn]
    itself raises. *)
Definition annotation_failure (an2cn : Z -> result string) (e : exn) : Prop :=
  (exists msg, e = IndexError msg)
  \/ is_overflow e
  \/ (exists n, an2cn n = Raise e).

(** Star points that [_draw_star_points] can place: those of 'auto', or a
    list of pairs of floats or of ints from 0 to 1001. *)
Definition placeable_star_points (self : t) : Prop :=
  star_point_pos self = Some (VStr "auto")
  \/ exists points,
       star_point_pos self = Some (VList (map tuple_of_point points))
       /\ Forall (fun p => placeable (fst p) /\ placeable (snd p)) points.

(** An object of ordinary use: at most 1001 lines a side, a thick line width
    that is a float or an int from 0 to 1001, star points that can be
    placed, labels that exist for every line of an annotated axis, and the
    other attributes assigned. *)
Definition ordinary (self : t) : Prop :=
  exists cols rows thin thick x_style y_style,
    size self = Some (cols, rows)
    /\ 0 <= cols <= 1001 /\ 0 <= rows <= 1001
    /\ line_widths self = Some (thin, thick) /\ placeable thick
    /\ is_set (line_spacing self) /\ is_set (border_spacing self)
    /\ placeable_star_points self
    /\ x_annotation self = Some x_style /\ labelled x_style cols
    /\ y_annotation self = Some y_style /\ labelled y_style rows
    /\ is_set (font_face self) /\ is_set (font_size self).

(** [border*center_factor], where a label sits in the border next to the
    origin, and [border*(2-center_factor) + (n-1)*spacing], where its copy
    sits in the border across the [n] lines of the other axis. *)
Definition near_edge (border : float) : num :=
  PFloat (SFmul prec emax border (float_lit 3 10)).

Definition far_edge (border spacing : float) (n : Z) : num :=
  PFloat (SFadd prec emax
            (SFmul prec emax border
               (SFsub prec emax (float_of 2) (float_lit 3 10)))
            (SFmul prec emax (float_of (n - 1)) spacing)).

(** The attributes that a setter assigns. *)
Definition assigned (c : setter_call) : list string :=
  match c with
  | Call_set_board_size _ => ["size"]
  | Call_set_line_widths _ => ["line_widths"]
  | Call_set_star_point_settings _ _ => ["star_point_pos"; "star_point_diameter"]
  | Call_set_line_spacing _ => ["line_spacing"]
  | Call_set_border_spacing _ => ["border_spacing"]
  | Call_set_grid_annotation_style _ _ => ["x_annotation"; "y_annotation"]
  | Call_set_font_face _ => ["font_face"]
  | Call_set_font_size _ => ["font_size"]
  end.

(** Two objects that agree on every attribute but those named. *)
Definition same_except (names : list string) (a b : t) : Prop :=
  (In "size" names \/ size a = size b)
  /\ (In "line_widths" names \/ line_widths a = line_widths b)
  /\ (In "line_spacing" names \/ line_spacing a = line_spacing b)
  /\ (In "border_spacing" names \/ border_spacing a = border_spacing b)
  /\ (In "star_point_pos" names \/ star_point_pos a = star_point_pos b)
  /\ (In "star_point_diameter" names
      \/ star_point_diameter a = star_point_diameter b)
  /\ (In "x_annotation" names \/ x_annotation a = x_annotation b)
  /\ (In "y_annotation" names \/ y_annotation a = y_annotation b)
  /\ (In "font_face" names \/ font_face a = font_face b)
  /\ (In "font_size" names \/ font_size a = font_size b).

End Render.

Import Render.

(* ===================================================================== *)
(** * Facts about the runtime *)
(* ===================================================================== *)

Lemma is_odd_spec (n : Z) : is_odd n = Z.odd n.
Proof.
  unfold is_odd. rewrite Zmod_odd.
  destruct (Z.odd n); reflexivity.
Qed.

Lemma middle_pos_mid (n : Z) : middle_pos n = Spec.mid n.
Proof. reflexivity. Qed.

Lemma in_range (n i : Z) : 0 <= i < n -> In i (range n).
Proof.
  intros H. unfold range. apply in_map_iff.
  exists (Z.to_nat i). split; [lia|]. apply in_seq. lia.
Qed.

(** On every odd line count up to 1001 the middle line is computed without
    error and is the number (n-1)/2 + 1 (checked by evaluation). *)
Lemma mid_exact_small (n : Z) :
  0 <= n <= 1001 -> Z.odd n = true ->
  exists y, Spec.mid n = Ok y /\ num_eq y (PInt ((n - 1) / 2 + 1)) = true.
Proof.
  intros Hn Hodd.
  assert (H : forallb
                (fun n => match Spec.mid n with
                          | Ok y => if Z.odd n
                                    then num_eq y (PInt ((n - 1) / 2 + 1))
                                    else true
                          | Raise _ => false
                          end) (range 1002) = true)
    by (vm_compute; reflexivity).
  rewrite forallb_forall in H. specialize (H n (in_range 1002 n ltac:(lia))).
  cbv beta in H. destruct (Spec.mid n) as [y|e]; [|discriminate].
  rewrite Hodd in H. eauto.
Qed.

(** Every line count up to 1001, less one, converts to a float. *)
Lemma float_of_int_small (n : Z) :
  0 <= n <= 1001 -> exists f, float_of_int (n - 1) = Ok f.
Proof.
  intros Hn.
  assert (H : forallb (fun n => is_ok (float_of_int (n - 1))) (range 1002) = true)
    by (vm_compute; reflexivity).
  rewrite forallb_forall in H. specialize (H n (in_range 1002 n ltac:(lia))).
  cbv beta in H. destruct (float_of_int (n - 1)) as [f|e]; [eauto | discriminate].
Qed.

(* ===================================================================== *)
(** * Star points *)
(* ===================================================================== *)

(** The list that the source builds for a 9x9 board: the five coordinates
    obtained by [/] are the float [5.0]. *)
Lemma auto_star_points_9x9_list (self : t) :
  size self = Some (9, 9) ->
  let five := PFloat (float_lit 5 1) in
  _get_auto_star_point_pos self =
    Ok [ (PInt 3, PInt 3); (PInt 3, PInt 7); (PInt 7, PInt 3); (PInt 7, PInt 7);
         (five, five); (five, PInt 3); (five, PInt 7);
         (PInt 3, five); (PInt 7, five) ].
Proof.
  intros Hsize five.
  unfold _get_auto_star_point_pos. rewrite Hsize. vm_compute. reflexivity.
Qed.

(** C1. On a 9x9 board [_get_auto_star_point_pos] returns nine pairwise
    different points, and as a set they are exactly the nine traditional
    ones: the four 3-3 points, the four edge-center points and the center
    (points compared by [==], which identifies the float [5.0] of the source
    with the int [5]). *)
Theorem C1_auto_star_points_9x9 (self : t) :
  size self = Some (9, 9) ->
  exists l,
    _get_auto_star_point_pos self = Ok l
    /\ Spec.same_points l Spec.traditional_9x9 = true
    /\ Spec.distinct_points l = true
    /\ List.length l = 9%nat.
Proof.
  intros Hsize. eexists. split.
  - apply auto_star_points_9x9_list, Hsize.
  - repeat split; vm_compute; reflexivity.
Qed.

Lemma C1_auto_star_points_9x9_witness :
  size (set_size (9, 9) blank) = Some (9, 9)
  /\ exists l,
       _get_auto_star_point_pos (set_size (9, 9) blank) = Ok l
       /\ Spec.same_points l Spec.traditional_9x9 = true
       /\ Spec.distinct_points l = true
       /\ List.length l = 9%nat.
Proof.
  split; [reflexivity|].
  apply (C1_auto_star_points_9x9 (set_size (9, 9) blank)). reflexivity.
Defined.

(** C6. When either dimension is below 3, no star point is placed. *)
Theorem C6_small_grid_no_star_points (self : t) (cols rows : Z) :
  size self = Some (cols, rows) ->
  cols < 3 \/ rows < 3 ->
  _get_auto_star_point_pos self = Ok [].
Proof.
  intros Hsize Hsmall.
  unfold _get_auto_star_point_pos. rewrite Hsize. cbn [getattr bind Monad_result fst snd].
  destruct (3 <=? cols) eqn:Hc; destruct (3 <=? rows) eqn:Hr; try reflexivity.
  apply Z.leb_le in Hc, Hr. lia.
Qed.

Lemma C6_small_grid_no_star_points_witness :
  size (set_size (2, 9) blank) = Some (2, 9)
  /\ (2 < 3 \/ 9 < 3)
  /\ _get_auto_star_point_pos (set_size (2, 9) blank) = Ok [].
Proof.
  split; [reflexivity|]. split; [left; lia|].
  apply (C6_small_grid_no_star_points (set_size (2, 9) blank) 2 9);
    [reflexivity | left; lia].
Defined.

(** With an even row count the result is the list of the other rules. *)
Lemma auto_star_points_even_rows (self : t) (cols rows : Z) :
  size self = Some (cols, rows) ->
  3 <= cols -> 3 <= rows -> rows mod 2 = 0 ->
  _get_auto_star_point_pos self = Spec.star_points_before_row_rule cols rows.
Proof.
  intros Hsize Hc Hr Heven.
  unfold _get_auto_star_point_pos, Spec.star_points_before_row_rule.
  rewrite Hsize. cbn [getattr bind Monad_result fst snd].
  rewrite !is_odd_spec, ?(middle_pos_mid cols), ?(middle_pos_mid rows).
  assert (Hodd : Z.odd rows = false).
  { rewrite Zmod_odd in Heven. destruct (Z.odd rows); [discriminate|reflexivity]. }
  rewrite Hodd, andb_false_r.
  destruct (Z.leb_spec 3 cols); [|lia]. destruct (Z.leb_spec 3 rows); [|lia].
  cbn [andb app].
  destruct (Z.odd cols); cbn [bind Monad_result app].
  - destruct (Spec.mid cols); reflexivity.
  - reflexivity.
Qed.

(** C5. With an odd row count (and both dimensions at least 3) the result
    is the list of the other rules followed by exactly two more points,
    (3, y_mid) and (rows-2, y_mid) with y_mid = (rows-1)/2 + 1: the first
    coordinate of the second point comes from the row count, not from the
    column count.  The equation is between outcomes: where a division of the
    source raises (a dimension too large for a float), so does the call. *)
Theorem C5_odd_rows_side_points (self : t) (cols rows : Z) :
  size self = Some (cols, rows) ->
  3 <= cols -> 3 <= rows -> rows mod 2 <> 0 ->
  _get_auto_star_point_pos self =
    (others <- Spec.star_points_before_row_rule cols rows ;;
     y_mid <- Spec.mid rows ;;
     Ok (others ++ [ (PInt 3, y_mid); (PInt (rows - 2), y_mid) ])).
Proof.
  intros Hsize Hc Hr Hodd.
  unfold _get_auto_star_point_pos, Spec.star_points_before_row_rule.
  rewrite Hsize. cbn [getattr bind Monad_result fst snd].
  rewrite !is_odd_spec, ?(middle_pos_mid cols), ?(middle_pos_mid rows).
  assert (Hrows : Z.odd rows = true).
  { rewrite Zmod_odd in Hodd. destruct (Z.odd rows); [reflexivity|congruence]. }
  rewrite Hrows, andb_true_r.
  destruct (Z.leb_spec 3 cols); [|lia]. destruct (Z.leb_spec 3 rows); [|lia].
  cbn [andb app].
  destruct (Z.odd cols); cbn [bind Monad_result app].
  - destruct (Spec.mid cols) as [x|e]; cbn [bind Monad_result app]; [|reflexivity].
    destruct (Spec.mid rows) as [y|e]; cbn [bind Monad_result app]; reflexivity.
  - destruct (Spec.mid rows) as [y|e]; reflexivity.
Qed.

Lemma C5_odd_rows_side_points_witness :
  size (set_size (13, 9) blank) = Some (13, 9)
  /\ 3 <= 13 /\ 3 <= 9 /\ 9 mod 2 <> 0
  /\ _get_auto_star_point_pos (set_size (13, 9) blank) =
       (others <- Spec.star_points_before_row_rule 13 9 ;;
        y_mid <- Spec.mid 9 ;;
        Ok (others ++ [ (PInt 3, y_mid); (PInt (9 - 2), y_mid) ])).
Proof.
  split; [reflexivity|]. split; [lia|]. split; [lia|].
  split; [vm_compute; discriminate|].
  apply (C5_odd_rows_side_points (set_size (13, 9) blank) 13 9);
    [reflexivity | lia | lia | vm_compute; discriminate].
Defined.

(** On a 13x9 board the two points are (3, 5.0) and (7, 5.0); the column
    count would have given 11 in place of 7. *)
Example auto_star_points_13x9 :
  _get_auto_star_point_pos (set_size (13, 9) blank) =
    let five := PFloat (float_lit 5 1) in
    let seven := PFloat (float_lit 7 1) in
    Ok [ (PInt 3, PInt 3); (PInt 3, PInt 7); (PInt 11, PInt 3); (PInt 11, PInt 7);
         (seven, five); (seven, PInt 3); (seven, PInt 7);
         (PInt 3, five); (PInt 7, five) ].
Proof. vm_compute. reflexivity. Qed.

(** On every board of up to 1001 lines a side the call returns a list. *)
Lemma auto_star_points_returns_small (self : t) (cols rows : Z) :
  size self = Some (cols, rows) ->
  cols <= 1001 -> rows <= 1001 ->
  exists l, _get_auto_star_point_pos self = Ok l.
Proof.
  intros Hsize Hc Hr.
  unfold _get_auto_star_point_pos. rewrite Hsize.
  cbn [getattr bind Monad_result fst snd].
  rewrite !is_odd_spec, ?(middle_pos_mid cols), ?(middle_pos_mid rows).
  destruct (Z.leb_spec 3 cols); [|eexists; reflexivity].
  destruct (Z.leb_spec 3 rows); [|eexists; reflexivity].
  cbn [andb app].
  destruct (Z.odd cols) eqn:Oc; destruct (Z.odd rows) eqn:Or; cbn [andb].
  - destruct (mid_exact_small cols ltac:(lia) Oc) as (x & -> & _).
    destruct (mid_exact_small rows ltac:(lia) Or) as (y & -> & _).
    cbn [bind Monad_result]. eexists; reflexivity.
  - destruct (mid_exact_small cols ltac:(lia) Oc) as (x & -> & _).
    cbn [bind Monad_result]. eexists; reflexivity.
  - destruct (mid_exact_small rows ltac:(lia) Or) as (y & -> & _).
    cbn [bind Monad_result]. eexists; reflexivity.
  - cbn [bind Monad_result]. eexists; reflexivity.
Qed.

(* ===================================================================== *)
(** * Canvas size *)
(* ===================================================================== *)

(** C2. [_get_board_dimensions] returns exactly
    ((cols-1)*spacing_x + 2*border_x, (rows-1)*spacing_y + 2*border_y),
    the products and sums being those of Python on an int and floats. *)
Theorem C2_board_dimensions (self : t) (cols rows : Z)
    (spacing_x spacing_y border_x border_y : float) :
  size self = Some (cols, rows) ->
  line_spacing self = Some (spacing_x, spacing_y) ->
  border_spacing self = Some (border_x, border_y) ->
  _get_board_dimensions self =
    Spec.canvas_size cols rows spacing_x spacing_y border_x border_y.
Proof.
  intros Hsize Hspacing Hborder.
  unfold _get_board_dimensions, Spec.canvas_size, Spec.canvas_extent.
  rewrite Hsize, Hspacing, Hborder.
  cbn [getattr bind Monad_result fst snd].
  destruct (num_mul (PInt (cols - 1)) (PFloat spacing_x)) as [gx|e]; [|reflexivity].
  reflexivity.
Qed.

Lemma new_default_board : new default_args = Ok default_board.
Proof. vm_compute. reflexivity. Qed.

Lemma C2_board_dimensions_witness :
  size default_board = Some (9, 9)
  /\ line_spacing default_board = Some (float_lit 22 1, float_lit 237 10)
  /\ border_spacing default_board = Some (float_lit 11 1, float_lit 12 1)
  /\ _get_board_dimensions default_board =
       Spec.canvas_size 9 9 (float_lit 22 1) (float_lit 237 10)
         (float_lit 11 1) (float_lit 12 1).
Proof.
  split; [reflexivity|]. split; [reflexivity|]. split; [reflexivity|].
  apply (C2_board_dimensions default_board 9 9); reflexivity.
Defined.

(** The default board is 198.0 mm by 213.6 mm. *)
Example board_dimensions_default :
  _get_board_dimensions default_board =
    Ok (PFloat (float_lit 198 1), PFloat (float_lit 2136 10)).
Proof. vm_compute. reflexivity. Qed.

(** In float operations: whenever the two line counts, less one, convert to
    floats [fc] and [fr], the call returns
    (fc*spacing_x + 2.0*border_x, fr*spacing_y + 2.0*border_y), every product
    and sum rounded once; otherwise it raises [OverflowError]. *)
Lemma board_dimensions_returns (self : t) (cols rows : Z)
    (spacing_x spacing_y border_x border_y : float) (fc fr : float) :
  size self = Some (cols, rows) ->
  line_spacing self = Some (spacing_x, spacing_y) ->
  border_spacing self = Some (border_x, border_y) ->
  float_of_int (cols - 1) = Ok fc ->
  float_of_int (rows - 1) = Ok fr ->
  _get_board_dimensions self =
    Ok (PFloat (SFadd prec emax (SFmul prec emax fc spacing_x)
                  (SFmul prec emax (float_lit 2 1) border_x)),
        PFloat (SFadd prec emax (SFmul prec emax fr spacing_y)
                  (SFmul prec emax (float_lit 2 1) border_y))).
Proof.
  intros Hsize Hspacing Hborder Hc Hr.
  unfold _get_board_dimensions. rewrite Hsize, Hspacing, Hborder.
  cbn [getattr bind Monad_result fst snd num_mul num_add to_float].
  rewrite Hc, Hr.
  change (float_of_int 2) with (Ok (float_lit 2 1) : result float).
  reflexivity.
Qed.

Lemma board_dimensions_returns_small (self : t) (cols rows : Z)
    (spacing_x spacing_y border_x border_y : float) :
  size self = Some (cols, rows) ->
  line_spacing self = Some (spacing_x, spacing_y) ->
  border_spacing self = Some (border_x, border_y) ->
  0 <= cols <= 1001 -> 0 <= rows <= 1001 ->
  exists width height,
    _get_board_dimensions self = Ok (PFloat width, PFloat height).
Proof.
  intros Hsize Hspacing Hborder Hc Hr.
  destruct (float_of_int_small cols Hc) as [fc Efc].
  destruct (float_of_int_small rows Hr) as [fr Efr].
  eexists. eexists. eapply board_dimensions_returns; eassumption.
Qed.

(* ===================================================================== *)
(** * The board size setter *)
(* ===================================================================== *)

(** C3, counterexample: a pair with a zero dimension is taken as it is. *)
Lemma C3_zero_dimension_accepted :
  Spec.invalid_size (VTuple [VInt 0; VInt 5]) = true
  /\ set_board_size (VTuple [VInt 0; VInt 5]) default_board
     = (set_size (0, 5) default_board, Ok tt).
Proof. split; reflexivity. Qed.

(** C3 (amended). [set_board_size] raises [ValueError] and leaves the object
    as it was for every argument that is neither an int nor a pair of ints:
    a non-integer value, a tuple of another length, a pair with a
    non-integer component.  Every int and every pair of ints is stored,
    zero dimensions included. *)
Theorem C3_set_board_size_validation (size : value) (self : t) :
  (Spec.grid_of size = None ->
     exists msg, set_board_size size self = (self, Raise (ValueError msg)))
  /\ (forall cols rows, Spec.grid_of size = Some (cols, rows) ->
     set_board_size size self = (set_size (cols, rows) self, Ok tt)).
Proof.
  unfold set_board_size.
  destruct size as [ | b | n | f | s | items | items ]; cbn [int_value Spec.grid_of];
    try (split; [intros _; eexists; reflexivity | discriminate]);
    try (split; [discriminate | intros ? ? [= <- <-]; reflexivity]).
  destruct items as [ | a [ | b [ | c rest ] ] ];
    try (split; [intros _; eexists; reflexivity | discriminate]).
  cbn [List.length Nat.eqb negb map].
  destruct (int_value a) as [x|], (int_value b) as [y|];
    try (split; [intros _; eexists; reflexivity | discriminate]).
  split; [discriminate | intros ? ? [= <- <-]; reflexivity].
Qed.

Lemma C3_set_board_size_validation_witness :
  (Spec.grid_of (VTuple [VInt 9; VInt 9; VInt 9]) = None
   /\ exists msg,
        set_board_size (VTuple [VInt 9; VInt 9; VInt 9]) default_board
        = (default_board, Raise (ValueError msg)))
  /\ (Spec.grid_of (VInt 13) = Some (13, 13)
      /\ set_board_size (VInt 13) default_board
         = (set_size (13, 13) default_board, Ok tt)).
Proof.
  split; (split; [reflexivity|]).
  - apply (C3_set_board_size_validation (VTuple [VInt 9; VInt 9; VInt 9])
             default_board). reflexivity.
  - apply (C3_set_board_size_validation (VInt 13) default_board). reflexivity.
Defined.

(** The three refusals of the source, each on an argument of its kind. *)
Example set_board_size_refusals :
  set_board_size (VFloat (float_lit 19 2)) default_board
    = (default_board,
       Raise (ValueError "Parameter size may only be an int or a tuple."))
  /\ set_board_size (VTuple [VInt 9]) default_board
    = (default_board, Raise (ValueError "Board size must be two-dimensional."))
  /\ set_board_size (VTuple [VInt 9; VStr "9"]) default_board
    = (default_board,
       Raise (ValueError "Parameter size must be a tuple of integers.")).
Proof. repeat split. Qed.

(* ===================================================================== *)
(** * Annotation styles *)
(* ===================================================================== *)

Lemma str_contains_unfold (needle haystack : string) :
  str_contains needle haystack =
    String.prefix needle haystack ||
    match haystack with
    | EmptyString => false
    | String _ rest => str_contains needle rest
    end.
Proof. destruct haystack; reflexivity. Qed.

Lemma prefix_append (a b : string) : String.prefix a (a ++ b) = true.
Proof.
  induction a as [ | c a IH ]; cbn.
  - destruct b; reflexivity.
  - destruct (ascii_dec c c) as [_|Hne]; [exact IH | contradiction].
Qed.

Lemma str_contains_middle (needle before after : string) :
  str_contains needle (before ++ needle ++ after) = true.
Proof.
  induction before as [ | c before IH ].
  - cbn [String.append]. rewrite str_contains_unfold, prefix_append. reflexivity.
  - cbn [String.append]. rewrite str_contains_unfold.
    cbn match. rewrite IH. apply orb_true_r.
Qed.

(** Building the error of the setter fails on its own: the message joins
    [legal_values], whose first item is [None]. *)
Lemma annotation_error_raises :
  annotation_error =
    Raise (TypeError "sequence item 0: expected str instance, NoneType found").
Proof. reflexivity. Qed.

Lemma raise_annotation_error_fails (self : t) :
  exists e, raise_annotation_error self = (self, Raise e).
Proof. eexists. reflexivity. Qed.

Lemma not_legal_not_label_style (style : optstr) :
  py_in style legal_values = false ->
  optstr_eqb style (Some "arabic_numerals") = false
  /\ optstr_eqb style (Some "latin_letters") = false
  /\ optstr_eqb style (Some "chinese_numerals") = false.
Proof.
  unfold py_in, legal_values. cbn [existsb]. intros H.
  repeat (apply orb_false_elim in H; destruct H as [? H]). auto.
Qed.

(** The object and the exception that [set_grid_annotation_style] leaves
    for the name 'roman_numerals': a [TypeError], whose message does not
    carry the name. *)
Lemma C4_setter_error_without_name :
  py_in (Some "roman_numerals") legal_values = false
  /\ set_grid_annotation_style (Some "roman_numerals") None default_board
     = (default_board,
        Raise (TypeError "sequence item 0: expected str instance, NoneType found"))
  /\ str_contains "roman_numerals"
       "sequence item 0: expected str instance, NoneType found" = false.
Proof. repeat split. Qed.

(** C4. The defect in the setter: a style that is not one of the four
    recognized values is refused and not stored, on either axis, but the
    exception is the [TypeError] of joining [legal_values], whose first item
    is [None], and not the [ValueError] that the [raise] statement names.
    [_get_annotation_string], the other place that checks a style, does
    raise [ValueError] for such a style, with the name in its message. *)
Theorem C4_unrecognized_annotation_style
    (an2cn : Z -> result string) (style other : optstr) (self : t) (index : Z) :
  py_in style legal_values = false ->
  set_grid_annotation_style style other self =
    (self, Raise (TypeError "sequence item 0: expected str instance, NoneType found"))
  /\ (exists self',
        set_grid_annotation_style other style self =
          (self',
           Raise (TypeError "sequence item 0: expected str instance, NoneType found"))
        /\ y_annotation self' = y_annotation self)
  /\ (exists msg,
        _get_annotation_string an2cn index style = Raise (ValueError msg)
        /\ str_contains (str_of_optstr style) msg = true).
Proof.
  intros Hstyle. split; [|split].
  - unfold set_grid_annotation_style. rewrite Hstyle. reflexivity.
  - unfold set_grid_annotation_style. rewrite Hstyle.
    cbn [bind Monad_stateful].
    destruct (py_in other legal_values).
    + cbn [modify]. eexists. split; reflexivity.
    + eexists. split; reflexivity.
  - destruct (not_legal_not_label_style style Hstyle) as (Ha & Hl & Hc).
    unfold _get_annotation_string. rewrite Ha, Hl, Hc.
    eexists. split; [reflexivity|].
    apply str_contains_middle.
Qed.

Lemma C4_unrecognized_annotation_style_witness :
  py_in (Some "roman_numerals") legal_values = false
  /\ set_grid_annotation_style (Some "roman_numerals") None default_board =
       (default_board,
        Raise (TypeError "sequence item 0: expected str instance, NoneType found"))
  /\ (exists self',
        set_grid_annotation_style None (Some "roman_numerals") default_board =
          (self',
           Raise (TypeError "sequence item 0: expected str instance, NoneType found"))
        /\ y_annotation self' = y_annotation default_board)
  /\ (exists msg,
        _get_annotation_string an2cn_unused 0 (Some "roman_numerals")
        = Raise (ValueError msg)
        /\ str_contains (str_of_optstr (Some "roman_numerals")) msg = true).
Proof.
  split; [reflexivity|].
  apply (C4_unrecognized_annotation_style an2cn_unused
           (Some "roman_numerals") None default_board 0).
  reflexivity.
Defined.

(** The message of [_get_annotation_string] for the name above. *)
Example unknown_style_message :
  _get_annotation_string an2cn_unused 0 (Some "roman_numerals") =
    Raise (ValueError "Unknown annotation style 'roman_numerals' specified.").
Proof. reflexivity. Qed.

(** C9. A call with a legal [x_annotation] and an illegal [y_annotation]
    raises, and the object it leaves behind already has the new
    [x_annotation]; [y_annotation] is as before. *)
Theorem C9_annotation_setter_not_atomic (self : t) (x_annotation' y_annotation' : optstr) :
  py_in x_annotation' legal_values = true ->
  py_in y_annotation' legal_values = false ->
  exists self' e,
    set_grid_annotation_style x_annotation' y_annotation' self = (self', Raise e)
    /\ x_annotation self' = Some x_annotation'
    /\ y_annotation self' = y_annotation self
    /\ self' = set_x_annotation x_annotation' self.
Proof.
  intros Hx Hy. unfold set_grid_annotation_style. rewrite Hx, Hy.
  cbn [bind Monad_stateful modify].
  destruct (raise_annotation_error_fails (set_x_annotation x_annotation' self))
    as [e He].
  rewrite He. exists (set_x_annotation x_annotation' self), e.
  repeat split.
Qed.

Lemma C9_annotation_setter_not_atomic_witness :
  py_in (Some "latin_letters") legal_values = true
  /\ py_in (Some "roman_numerals") legal_values = false
  /\ exists self' e,
       set_grid_annotation_style (Some "latin_letters") (Some "roman_numerals")
         default_board = (self', Raise e)
       /\ x_annotation self' = Some (Some "latin_letters")
       /\ y_annotation self' = y_annotation default_board
       /\ self' = set_x_annotation (Some "latin_letters") default_board.
Proof.
  split; [reflexivity|]. split; [reflexivity|].
  apply (C9_annotation_setter_not_atomic default_board
           (Some "latin_letters") (Some "roman_numerals")); reflexivity.
Defined.

(* ===================================================================== *)
(** * Latin-letter labels *)
(* ===================================================================== *)

Lemma letters_string :
  str_replace ascii_uppercase "I" "" = "ABCDEFGHJKLMNOPQRSTUVWXYZ".
Proof. reflexivity. Qed.

Lemma latin_label (an2cn : Z -> result string) (index : Z) :
  _get_annotation_string an2cn index (Some "latin_letters") =
    str_index "ABCDEFGHJKLMNOPQRSTUVWXYZ" index.
Proof. reflexivity. Qed.

(** Every index from 0 to 24 is labelled with the letter of that rank. *)
Lemma latin_label_in_range (an2cn : Z -> result string) (index : Z) :
  0 <= index <= 24 ->
  exists label,
    Spec.nth_letter (Z.to_nat (index + 1)) = Some label
    /\ _get_annotation_string an2cn index (Some "latin_letters") = Ok label.
Proof.
  intros Hindex. rewrite latin_label.
  rewrite <- (Z2Nat.id index) by lia.
  assert (Hn : (Z.to_nat index < 25)%nat) by lia.
  replace (Z.to_nat (Z.of_nat (Z.to_nat index) + 1)) with (S (Z.to_nat index)) by lia.
  generalize dependent (Z.to_nat index). intros n Hn.
  do 25 (destruct n as [ | n ]; [ eexists; split; vm_compute; reflexivity | ]).
  lia.
Qed.

(** C8, counterexample: index 7 is labelled "H", not "J". *)
Lemma C8_index_7_is_H :
  _get_annotation_string an2cn_unused 7 (Some "latin_letters") = Ok "H"
  /\ _get_annotation_string an2cn_unused 7 (Some "latin_letters") <> Ok "J".
Proof. split; [reflexivity | discriminate]. Qed.

(** C8 (amended). In the style 'latin_letters' index 0 is labelled "A",
    index 7 "H" and index 8 "J"; for every index from 0 to 24 the label is
    the (index+1)-th uppercase Latin letter of the alphabet without "I". *)
Theorem C8_latin_letters (an2cn : Z -> result string) :
  _get_annotation_string an2cn 0 (Some "latin_letters") = Ok "A"
  /\ _get_annotation_string an2cn 7 (Some "latin_letters") = Ok "H"
  /\ _get_annotation_string an2cn 8 (Some "latin_letters") = Ok "J"
  /\ forall index, 0 <= index <= 24 ->
       exists label,
         Spec.nth_letter (Z.to_nat (index + 1)) = Some label
         /\ _get_annotation_string an2cn index (Some "latin_letters") = Ok label.
Proof.
  repeat split.
  apply latin_label_in_range.
Qed.

Lemma C8_latin_letters_witness :
  0 <= 23 <= 24
  /\ exists label,
       Spec.nth_letter (Z.to_nat (23 + 1)) = Some label
       /\ _get_annotation_string an2cn_unused 23 (Some "latin_letters") = Ok label.
Proof.
  split; [lia|].
  apply (C8_latin_letters an2cn_unused). lia.
Defined.

(** A negative index counts from the end of the letters, as Python indexing
    does: the labels of indices -25 to -1 are those of 0 to 24. *)
Lemma latin_label_negative_index (an2cn : Z -> result string) (index : Z) :
  -25 <= index < 0 ->
  _get_annotation_string an2cn index (Some "latin_letters") =
    _get_annotation_string an2cn (index + 25) (Some "latin_letters").
Proof.
  intros H. rewrite !latin_label. unfold str_index.
  cbn [String.length Z.of_nat Pos.of_succ_nat Pos.succ].
  cbv zeta.
  assert (E1 : (index <? 0) = true) by (apply Z.ltb_lt; lia).
  assert (E2 : (index + 25 <? 0) = false) by (apply Z.ltb_ge; lia).
  rewrite E1. cbv iota. rewrite !E2. cbv iota. rewrite ?E2. reflexivity.
Qed.

(* ===================================================================== *)
(** * Drawing the annotations *)
(* ===================================================================== *)

(** A loop fails when its body fails at one of the items, whatever the
    object is by then. *)
Lemma for_each_fails {S A} (items : list A) (body : A -> stateful S unit) (x : A) :
  In x items ->
  (forall s, exists s' e, body x s = (s', Raise e)) ->
  forall s, exists s' e, for_each items body s = (s', Raise e).
Proof.
  intros Hin Hbody. induction items as [ | y items IH ]; [contradiction|].
  intros s. cbn [for_each bind Monad_stateful].
  destruct Hin as [-> | Hin].
  - destruct (Hbody s) as (s' & e & ->). eauto.
  - destruct (body y s) as [s1 [ [] | e ] ]; [apply (IH Hin) | eauto].
Qed.

Lemma lift_bind_fails {S A B} (r : result A) (k : A -> stateful S B) (s : S) :
  (forall a, r = Ok a -> exists s' e, k a s = (s', Raise e)) ->
  exists s' e, bind (lift r) k s = (s', Raise e).
Proof.
  intros H. cbn [bind Monad_stateful lift].
  destruct r as [a|e]; [apply H; reflexivity | eauto].
Qed.

Lemma bind_fails {S A B} (c : stateful S A) (k : A -> stateful S B) (s : S) :
  (forall s1 a, c s = (s1, Ok a) -> exists s' e, k a s1 = (s', Raise e)) ->
  exists s' e, bind c k s = (s', Raise e).
Proof.
  intros H. cbn [bind Monad_stateful].
  destruct (c s) as [s1 [a|e] ]; [apply (H s1 a); reflexivity | eauto].
Qed.

Lemma bind_fails_first {S A B} (c : stateful S A) (k : A -> stateful S B) (s : S) :
  (exists s' e, c s = (s', Raise e)) ->
  exists s' e, bind c k s = (s', Raise e).
Proof.
  intros (s' & e & H). cbn [bind Monad_stateful]. rewrite H. eauto.
Qed.

(** The label of line 25 in the style 'latin_letters' does not exist. *)
Lemma latin_label_out_of_range (an2cn : Z -> result string) (index : Z) :
  25 <= index ->
  _get_annotation_string an2cn index (Some "latin_letters") =
    Raise (IndexError "string index out of range").
Proof.
  intros H. rewrite latin_label. unfold str_index.
  cbn [String.length Z.of_nat Pos.of_succ_nat Pos.succ].
  cbv zeta.
  assert (E1 : (index <? 0) = false) by (apply Z.ltb_ge; lia).
  assert (E2 : (25 <=? index) = true) by (apply Z.leb_le; lia).
  rewrite E1. cbv iota. rewrite E1, E2. reflexivity.
Qed.

Ltac peel :=
  first [ apply lift_bind_fails; intros ? ?
        | apply bind_fails; intros ? ? ? ].

(** Drawing fails when the vertical lines are lettered and more than 25. *)
Lemma draw_annotations_fails_x (an2cn : Z -> result string) (self : t)
    (cols rows : Z) (drawn : context) :
  size self = Some (cols, rows) ->
  x_annotation self = Some (Some "latin_letters") ->
  25 < cols ->
  exists drawn' e, _draw_annotations an2cn self drawn = (drawn', Raise e).
Proof.
  intros Hsize Hx Hcols. unfold _draw_annotations. cbv zeta.
  rewrite Hx, Hsize.
  do 3 peel.
  match goal with H : getattr _ (Some (Some _)) = Ok _ |- _ => injection H as <- end.
  apply bind_fails_first.
  do 8 peel.
  match goal with H : getattr "size" _ = Ok _ |- _ => injection H as <- end.
  cbn [fst snd].
  apply for_each_fails with (x := 25); [apply in_range; lia|].
  intros s. rewrite latin_label_out_of_range by lia.
  eexists. eexists. reflexivity.
Qed.

(** Drawing fails when the horizontal lines are lettered and more than 25:
    if nothing fails before, the first label asked for is that of line
    [rows - 1]. *)
Lemma draw_annotations_fails_y (an2cn : Z -> result string) (self : t)
    (cols rows : Z) (drawn : context) :
  size self = Some (cols, rows) ->
  y_annotation self = Some (Some "latin_letters") ->
  25 < rows ->
  exists drawn' e, _draw_annotations an2cn self drawn = (drawn', Raise e).
Proof.
  intros Hsize Hy Hrows. unfold _draw_annotations. cbv zeta.
  rewrite Hy, Hsize.
  do 5 peel.
  match goal with H : getattr _ (Some (Some _)) = Ok _ |- _ => injection H as <- end.
  do 8 peel.
  match goal with H : getattr "size" _ = Ok _ |- _ => injection H as <- end.
  cbn [fst snd].
  apply for_each_fails with (x := 0); [apply in_range; lia|].
  intros s. rewrite latin_label_out_of_range by lia.
  eexists. eexists. reflexivity.
Qed.

(** C10. In the style 'latin_letters' a line index from 0 to 24 has a
    label, and every index from 25 on makes [_get_annotation_string] raise
    [IndexError]; hence [_draw_annotations] fails on a board that has more
    than 25 lines on an axis annotated with Latin letters. *)
Theorem C10_latin_letters_index_error (an2cn : Z -> result string) :
  (forall index, 0 <= index ->
     (index <= 24 ->
        exists label,
          _get_annotation_string an2cn index (Some "latin_letters") = Ok label)
     /\ (25 <= index ->
        _get_annotation_string an2cn index (Some "latin_letters") =
          Raise (IndexError "string index out of range")))
  /\ (forall self cols rows drawn,
        size self = Some (cols, rows) ->
        (x_annotation self = Some (Some "latin_letters") /\ 25 < cols)
        \/ (y_annotation self = Some (Some "latin_letters") /\ 25 < rows) ->
        exists drawn' e, _draw_annotations an2cn self drawn = (drawn', Raise e)).
Proof.
  split.
  - intros index H0. split.
    + intros H24.
      destruct (latin_label_in_range an2cn index (conj H0 H24))
        as (label & _ & E). eauto.
    + apply latin_label_out_of_range.
  - intros self cols rows drawn Hsize [ [Hx Hc] | [Hy Hr] ].
    + eapply draw_annotations_fails_x; eassumption.
    + eapply draw_annotations_fails_y; eassumption.
Qed.

Lemma C10_latin_letters_index_error_witness :
  (0 <= 25
   /\ 25 <= 25
   /\ _get_annotation_string an2cn_unused 25 (Some "latin_letters") =
        Raise (IndexError "string index out of range"))
  /\ (size (lettered_board 26 9) = Some (26, 9)
      /\ x_annotation (lettered_board 26 9) = Some (Some "latin_letters")
      /\ 25 < 26
      /\ exists drawn' e,
           _draw_annotations an2cn_unused (lettered_board 26 9) [] = (drawn', Raise e)).
Proof.
  destruct (C10_latin_letters_index_error an2cn_unused) as [Hlabel Hdraw].
  split.
  - split; [lia|]. split; [lia|]. apply (Hlabel 25); lia.
  - split; [reflexivity|]. split; [reflexivity|]. split; [lia|].
    apply (Hdraw (lettered_board 26 9) 26 9 []); [reflexivity|].
    left. split; [reflexivity | lia].
Defined.

(** On a lettered 26x9 board the failure is the [IndexError] of line 25,
    after the 25 labels before it have been drawn twice each. *)
Example draw_annotations_26_lines :
  exists drawn,
    _draw_annotations an2cn_unused (lettered_board 26 9) [] =
      (drawn, Raise (IndexError "string index out of range"))
    /\ List.length drawn = 52%nat.
Proof. eexists. split; vm_compute; reflexivity. Qed.

(* ===================================================================== *)
(** * Line widths *)
(* ===================================================================== *)

Section NumberOrder.

Lemma num_le_xle (x y : num) : num_le x y = xle (num_value x) (num_value y).
Proof. reflexivity. Qed.

Lemma value_not_nan (x : num) : is_nan x = false -> num_value x <> XNaN.
Proof.
  destruct x as [ z | [ s | s | | s m e ] ]; cbn; try discriminate.
  destruct e; discriminate.
Qed.

Lemma xle_fin (p q : Q) : xle (XFin p) (XFin q) = true <-> (p <= q)%Q.
Proof.
  unfold xle, xlt, xeq. rewrite orb_true_iff, negb_true_iff, Qeq_bool_iff.
  rewrite <- not_true_iff_false, Qle_bool_iff. split.
  - intros [H | H].
    + apply Qlt_le_weak, Qnot_le_lt, H.
    + rewrite H. apply Qle_refl.
  - intros H. destruct (Qlt_le_dec p q) as [Hlt | Hge].
    + left. apply Qlt_not_le, Hlt.
    + right. apply Qle_antisym; assumption.
Qed.

Lemma xle_refl (u : xvalue) : u <> XNaN -> xle u u = true.
Proof.
  destruct u as [ | a | q ]; intros H.
  - contradiction.
  - destruct a; reflexivity.
  - apply xle_fin, Qle_refl.
Qed.

Lemma xlt_xle (u v : xvalue) : xlt u v = true -> xle u v = true.
Proof. unfold xle. intros ->. reflexivity. Qed.

Lemma xle_total (u v : xvalue) :
  u <> XNaN -> v <> XNaN -> xlt u v = false -> xle v u = true.
Proof.
  destruct u as [ | a | p ], v as [ | b | q ]; intros Hu Hv H;
    try contradiction.
  - destruct a, b; try reflexivity; discriminate H.
  - cbn in H. subst a. reflexivity.
  - cbn in H. destruct b; [reflexivity | discriminate H].
  - apply xle_fin. cbn in H. apply negb_false_iff, Qle_bool_iff in H. exact H.
Qed.

Lemma xle_trans (u v w : xvalue) :
  xle u v = true -> xle v w = true -> xle u w = true.
Proof.
  destruct u as [ | a | p ], v as [ | b | q ], w as [ | c | r ];
    try discriminate; intros H1 H2;
    try (destruct a); try (destruct b); try (destruct c);
    try reflexivity; try discriminate.
  apply xle_fin. apply xle_fin in H1, H2. eapply Qle_trans; eassumption.
Qed.

Lemma num_le_refl (x : num) : is_nan x = false -> num_le x x = true.
Proof. intros H. rewrite num_le_xle. apply xle_refl, value_not_nan, H. Qed.

Lemma num_lt_le (x y : num) : num_lt x y = true -> num_le x y = true.
Proof. rewrite num_le_xle. apply xlt_xle. Qed.

Lemma num_le_total (x y : num) :
  is_nan x = false -> is_nan y = false ->
  num_lt x y = false -> num_le y x = true.
Proof.
  intros Hx Hy. rewrite num_le_xle. apply xle_total; apply value_not_nan; assumption.
Qed.

Lemma num_le_trans (x y z : num) :
  num_le x y = true -> num_le y z = true -> num_le x z = true.
Proof. rewrite !num_le_xle. apply xle_trans. Qed.

End NumberOrder.

(** [min] of a tuple without NaN is one of its items and is below all. *)
Lemma py_min_least (first : num) (rest : list num) :
  Forall not_nan (first :: rest) ->
  exists m,
    py_min (first :: rest) = Ok m
    /\ not_nan m
    /\ In m (first :: rest)
    /\ forall x, In x (first :: rest) -> num_le m x = true.
Proof.
  unfold py_min. intros Hall. eexists. split; [reflexivity|].
  induction rest as [ | y rest IH ] using rev_ind.
  - inversion Hall; subst. cbn. repeat split; auto.
    intros x [ <- | [] ]. apply num_le_refl. assumption.
  - assert (Hrest : Forall not_nan (first :: rest)).
    { apply Forall_cons_iff in Hall. destruct Hall as [Hf Hr].
      apply Forall_app in Hr. constructor; tauto. }
    assert (Hy : not_nan y).
    { apply Forall_cons_iff in Hall. destruct Hall as [_ Hr].
      apply Forall_app in Hr. destruct Hr as [_ Hr]. inversion Hr; assumption. }
    destruct (IH Hrest) as (Hm & Hin & Hle). clear IH.
    rewrite fold_left_app. cbn [fold_left].
    set (m := fold_left _ rest first) in *.
    assert (Hsplit : forall x, In x (first :: rest ++ [y]) ->
                               In x (first :: rest) \/ x = y).
    { intros x [ <- | Hx ]; [left; left; reflexivity|].
      apply in_app_or in Hx. destruct Hx as [Hx | [ <- | [] ] ]; [|auto].
      left. right. exact Hx. }
    destruct (num_lt y m) eqn:Hlt.
    + split; [exact Hy|]. split.
      { right. apply in_or_app. right. left. reflexivity. }
      intros x Hx. destruct (Hsplit x Hx) as [Hx' | ->].
      * apply num_le_trans with m; [apply num_lt_le, Hlt | apply Hle, Hx'].
      * apply num_le_refl, Hy.
    + split; [exact Hm|]. split.
      { destruct Hin as [ <- | Hin ]; [left; reflexivity|].
        right. apply in_or_app. left. exact Hin. }
      intros x Hx. destruct (Hsplit x Hx) as [Hx' | ->].
      * apply Hle, Hx'.
      * apply num_le_total; assumption.
Qed.

(** [max] of a tuple without NaN is one of its items. *)
Lemma py_max_member (first : num) (rest : list num) :
  exists m, py_max (first :: rest) = Ok m /\ In m (first :: rest).
Proof.
  unfold py_max. eexists. split; [reflexivity|].
  induction rest as [ | y rest IH ] using rev_ind.
  - left. reflexivity.
  - rewrite fold_left_app. cbn [fold_left].
    set (m := fold_left _ rest first) in *.
    destruct (num_gt y m).
    + right. apply in_or_app. right. left. reflexivity.
    + destruct IH as [ <- | IH ]; [left; reflexivity|].
      right. apply in_or_app. left. exact IH.
Qed.

(** What [set_line_widths] stores for a tuple of numbers without NaN. *)
Lemma set_line_widths_normalized (line_widths' : list num) (self : t) :
  line_widths' <> [] ->
  Forall not_nan line_widths' ->
  exists thin thick,
    set_line_widths line_widths' self = (set_widths (thin, thick) self, Ok tt)
    /\ num_le thin thick = true.
Proof.
  intros Hne Hall. destruct line_widths' as [ | first rest ]; [contradiction|].
  destruct (py_min_least first rest Hall) as (lo & Emin & _ & _ & Hle).
  destruct (py_max_member first rest) as (hi & Emax & Hin).
  exists lo, hi. split; [|apply Hle, Hin].
  unfold set_line_widths. rewrite Emin, Emax. reflexivity.
Qed.

(** An empty tuple is refused and nothing is stored. *)
Lemma set_line_widths_empty (self : t) :
  exists e, set_line_widths [] self = (self, Raise e).
Proof. eexists. reflexivity. Qed.

(** The setters that [__init__] calls after [set_line_widths] leave the
    attribute [line_widths] alone, whether they raise or not. *)
Lemma set_line_spacing_keeps_widths (v : value) (self : t) :
  line_widths (fst (set_line_spacing v self)) = line_widths self.
Proof.
  destruct v as [ | b | n | f | s | items | items ]; try reflexivity.
  destruct items as [ | x [ | y [ | z rest ] ] ]; try reflexivity.
  destruct x, y; reflexivity.
Qed.

Lemma set_border_spacing_keeps_widths (v : value) (self : t) :
  line_widths (fst (set_border_spacing v self)) = line_widths self.
Proof.
  destruct v as [ | b | n | f | s | items | items ]; try reflexivity.
  destruct items as [ | x [ | y [ | z rest ] ] ]; try reflexivity.
  destruct x, y; reflexivity.
Qed.

Lemma set_grid_annotation_style_keeps_widths (x y : optstr) (self : t) :
  line_widths (fst (set_grid_annotation_style x y self)) = line_widths self.
Proof.
  unfold set_grid_annotation_style. cbn [bind Monad_stateful].
  destruct (py_in x legal_values), (py_in y legal_values); reflexivity.
Qed.

Lemma set_star_point_settings_keeps_widths (p d : value) (self : t) :
  line_widths (fst (set_star_point_settings p d self)) = line_widths self.
Proof.
  unfold set_star_point_settings. cbn [bind Monad_stateful].
  destruct (is_none p), (is_none d); reflexivity.
Qed.

Lemma init_keeps_widths (a : init_args) (s1 self' : t) :
  (set_line_spacing a.(arg_line_spacing) ;;;
   set_border_spacing a.(arg_border_spacing) ;;;
   set_grid_annotation_style a.(arg_x_annotation) a.(arg_y_annotation) ;;;
   set_star_point_settings a.(arg_star_point_pos) a.(arg_star_point_diameter) ;;;
   set_font_face a.(arg_font_face) ;;;
   set_font_size a.(arg_font_size)) s1 = (self', Ok tt) ->
  line_widths self' = line_widths s1.
Proof.
  cbn [bind Monad_stateful].
  pose proof (set_line_spacing_keeps_widths a.(arg_line_spacing) s1) as H2.
  destruct (set_line_spacing _ s1) as [s2 [ [] | e ] ]; [|discriminate].
  pose proof (set_border_spacing_keeps_widths a.(arg_border_spacing) s2) as H3.
  destruct (set_border_spacing _ s2) as [s3 [ [] | e ] ]; [|discriminate].
  pose proof (set_grid_annotation_style_keeps_widths
                a.(arg_x_annotation) a.(arg_y_annotation) s3) as H4.
  destruct (set_grid_annotation_style _ _ s3) as [s4 [ [] | e ] ]; [|discriminate].
  pose proof (set_star_point_settings_keeps_widths
                a.(arg_star_point_pos) a.(arg_star_point_diameter) s4) as H5.
  destruct (set_star_point_settings _ _ s4) as [s5 [ [] | e ] ]; [|discriminate].
  cbn in *. intros H. injection H as <-. cbn. congruence.
Qed.

(** C7, counterexample: when the widths are NaN the stored pair is
    (nan, nan), and [nan <= nan] is false. *)
Lemma C7_nan_widths_not_normalized :
  set_line_widths [PFloat S754_nan; PFloat S754_nan] default_board
  = (set_widths (PFloat S754_nan, PFloat S754_nan) default_board, Ok tt)
  /\ num_le (PFloat S754_nan) (PFloat S754_nan) = false.
Proof. split; reflexivity. Qed.

(** One NaN in front is enough: [min] and [max] keep their first item,
    every comparison with it being false. *)
Example set_line_widths_nan_first :
  set_line_widths [PFloat S754_nan; PFloat (float_lit 1 1)] default_board
  = (set_widths (PFloat S754_nan, PFloat S754_nan) default_board, Ok tt).
Proof. reflexivity. Qed.

(** C7 (amended). After a call of [set_line_widths] with a tuple of numbers
    none of which is NaN, in any order, the stored pair (thin, thick) has
    [thin <= thick]; the same holds for the object that the constructor
    returns. *)
Theorem C7_line_widths_normalized :
  (forall (line_widths' : list num) (self : t),
     line_widths' <> [] ->
     Forall not_nan line_widths' ->
     exists thin thick,
       set_line_widths line_widths' self = (set_widths (thin, thick) self, Ok tt)
       /\ line_widths (set_widths (thin, thick) self) = Some (thin, thick)
       /\ num_le thin thick = true)
  /\ (forall (a : init_args) (self : t),
        new a = Ok self ->
        Forall not_nan a.(arg_line_widths) ->
        exists thin thick,
          line_widths self = Some (thin, thick) /\ num_le thin thick = true).
Proof.
  split.
  - intros ws self Hne Hall.
    destruct (set_line_widths_normalized ws self Hne Hall) as (lo & hi & E & Hle).
    exists lo, hi. repeat split; assumption.
  - intros a self Hnew Hall. unfold new in Hnew.
    destruct (__init__ a blank) as [self' [ [] | e ] ] eqn:Einit; [|discriminate].
    injection Hnew as ->.
    unfold __init__ in Einit.
    cbn [bind Monad_stateful] in Einit.
    destruct (set_board_size a.(arg_size) blank) as [s0 [ [] | e ] ];
      [|discriminate].
    destruct (arg_line_widths a) as [ | first rest ] eqn:Ew.
    + destruct (set_line_widths_empty s0) as [e He]. rewrite He in Einit.
      discriminate.
    + destruct (set_line_widths_normalized (first :: rest) s0) as (lo & hi & E & Hle);
        [discriminate | exact Hall |].
      rewrite E in Einit.
      exists lo, hi. split; [|exact Hle].
      rewrite (init_keeps_widths a _ _ Einit). reflexivity.
Qed.

Lemma C7_line_widths_normalized_witness :
  ([PInt 2; PFloat (float_lit 1 2)] <> []
   /\ Forall not_nan [PInt 2; PFloat (float_lit 1 2)]
   /\ exists thin thick,
        set_line_widths [PInt 2; PFloat (float_lit 1 2)] default_board
        = (set_widths (thin, thick) default_board, Ok tt)
        /\ line_widths (set_widths (thin, thick) default_board) = Some (thin, thick)
        /\ num_le thin thick = true)
  /\ (new default_args = Ok default_board
      /\ Forall not_nan default_args.(arg_line_widths)
      /\ exists thin thick,
           line_widths default_board = Some (thin, thick)
           /\ num_le thin thick = true).
Proof.
  destruct C7_line_widths_normalized as [Hset Hnew].
  split.
  - split; [discriminate|].
    split; [repeat constructor|].
    apply (Hset [PInt 2; PFloat (float_lit 1 2)] default_board);
      [discriminate | repeat constructor].
  - split; [vm_compute; reflexivity|].
    split; [repeat constructor|].
    apply (Hnew default_args default_board);
      [vm_compute; reflexivity | repeat constructor].
Defined.

(** Widths given thick first come out thin first. *)
Example set_line_widths_swaps :
  set_line_widths [PInt 2; PFloat (float_lit 1 2)] default_board
  = (set_widths (PFloat (float_lit 1 2), PInt 2) default_board, Ok tt).
Proof. vm_compute. reflexivity. Qed.

(* ===================================================================== *)
(** * The other setters and the constructor *)
(* ===================================================================== *)

(** What [set_board_size] does, by the kind of its argument. *)
Lemma set_board_size_cases (size : value) (self : t) :
  match Spec.grid_of size with
  | Some grid => set_board_size size self = (set_size grid self, Ok tt)
  | None => exists msg, set_board_size size self = (self, Raise (ValueError msg))
  end.
Proof.
  unfold set_board_size.
  destruct size as [ | b | n | f | s | items | items ]; cbn [int_value Spec.grid_of];
    try reflexivity; try (eexists; reflexivity).
  destruct items as [ | a [ | b [ | c rest ] ] ]; try (eexists; reflexivity).
  cbn [List.length Nat.eqb negb map].
  destruct (int_value a), (int_value b); try reflexivity; eexists; reflexivity.
Qed.

Lemma set_line_spacing_cases (line_spacing : value) (self : t) :
  match float_pair_of line_spacing with
  | Some sp => set_line_spacing line_spacing self = (set_spacing sp self, Ok tt)
  | None =>
      exists msg, set_line_spacing line_spacing self = (self, Raise (ValueError msg))
  end.
Proof.
  destruct line_spacing as [ | b | n | f | s | items | items ];
    try reflexivity; try (eexists; reflexivity).
  destruct items as [ | x [ | y [ | z rest ] ] ]; try (eexists; reflexivity);
    destruct x; try (eexists; reflexivity);
    destruct y; first [reflexivity | eexists; reflexivity].
Qed.

Lemma set_border_spacing_cases (border_spacing : value) (self : t) :
  match float_pair_of border_spacing with
  | Some sp => set_border_spacing border_spacing self = (set_border sp self, Ok tt)
  | None =>
      exists msg, set_border_spacing border_spacing self = (self, Raise (ValueError msg))
  end.
Proof.
  destruct border_spacing as [ | b | n | f | s | items | items ];
    try reflexivity; try (eexists; reflexivity).
  destruct items as [ | x [ | y [ | z rest ] ] ]; try (eexists; reflexivity);
    destruct x; try (eexists; reflexivity);
    destruct y; first [reflexivity | eexists; reflexivity].
Qed.

Lemma py_min_member (first : num) (rest : list num) :
  exists m, py_min (first :: rest) = Ok m /\ In m (first :: rest).
Proof.
  unfold py_min. eexists. split; [reflexivity|].
  induction rest as [ | y rest IH ] using rev_ind.
  - left. reflexivity.
  - rewrite fold_left_app. cbn [fold_left].
    set (m := fold_left _ rest first) in *.
    destruct (num_lt y m).
    + right. apply in_or_app. right. left. reflexivity.
    + destruct IH as [ <- | IH ]; [left; reflexivity|].
      right. apply in_or_app. left. exact IH.
Qed.

Lemma set_line_widths_cases (line_widths' : list num) (self : t) :
  match line_widths' with
  | [] => exists msg, set_line_widths [] self = (self, Raise (ValueError msg))
  | _ :: _ =>
      exists thin thick,
        set_line_widths line_widths' self = (set_widths (thin, thick) self, Ok tt)
        /\ In thin line_widths' /\ In thick line_widths'
  end.
Proof.
  destruct line_widths' as [ | first rest ]; [eexists; reflexivity|].
  destruct (py_max_member first rest) as (hi & Emax & Hhi).
  destruct (py_min_member first rest) as (lo & Emin & Hlo).
  exists lo, hi. split; [|split; assumption].
  unfold set_line_widths. rewrite Emin, Emax. reflexivity.
Qed.

(** X1. [set_line_spacing] and [set_border_spacing] take a float, stored as a
    square pair, or a tuple of two floats, stored as it is.  Any other
    argument, an int or a pair holding an int included, is refused with
    [ValueError] and the object stays as it was. *)
Theorem X1_spacing_setters_validation (self : t) :
  (forall f,
     set_line_spacing (VFloat f) self = (set_spacing (f, f) self, Ok tt)
     /\ set_border_spacing (VFloat f) self = (set_border (f, f) self, Ok tt))
  /\ (forall a b,
     set_line_spacing (VTuple [VFloat a; VFloat b]) self
       = (set_spacing (a, b) self, Ok tt)
     /\ set_border_spacing (VTuple [VFloat a; VFloat b]) self
       = (set_border (a, b) self, Ok tt))
  /\ (forall v, float_pair_of v = None ->
     (exists msg, set_line_spacing v self = (self, Raise (ValueError msg)))
     /\ (exists msg, set_border_spacing v self = (self, Raise (ValueError msg))))
  /\ (forall n f,
     float_pair_of (VInt n) = None
     /\ float_pair_of (VTuple [VInt n; VFloat f]) = None
     /\ float_pair_of (VTuple [VFloat f; VInt n]) = None
     /\ float_pair_of (VTuple [VFloat f]) = None
     /\ float_pair_of (VList [VFloat f; VFloat f]) = None).
Proof.
  split; [intros f; split; reflexivity|].
  split; [intros a b; split; reflexivity|].
  split; [|intros n f; repeat split].
  intros v Hv. split.
  - pose proof (set_line_spacing_cases v self) as H. rewrite Hv in H. exact H.
  - pose proof (set_border_spacing_cases v self) as H. rewrite Hv in H. exact H.
Qed.

Lemma X1_spacing_setters_validation_witness :
  float_pair_of (VInt 22) = None
  /\ (exists msg, set_line_spacing (VInt 22) default_board
                  = (default_board, Raise (ValueError msg)))
  /\ (exists msg, set_border_spacing (VInt 22) default_board
                  = (default_board, Raise (ValueError msg))).
Proof.
  split; [reflexivity|].
  apply (X1_spacing_setters_validation default_board). reflexivity.
Defined.

(** The object that a successful construction returns. *)
Lemma new_inversion (a : init_args) (self : t) :
  new a = Ok self ->
  exists grid thin thick spacing border,
    Spec.grid_of a.(arg_size) = Some grid
    /\ In thin a.(arg_line_widths) /\ In thick a.(arg_line_widths)
    /\ float_pair_of a.(arg_line_spacing) = Some spacing
    /\ float_pair_of a.(arg_border_spacing) = Some border
    /\ py_in a.(arg_x_annotation) legal_values = true
    /\ py_in a.(arg_y_annotation) legal_values = true
    /\ self = {|
         size := Some grid;
         line_widths := Some (thin, thick);
         line_spacing := Some spacing;
         border_spacing := Some border;
         star_point_pos :=
           if is_none a.(arg_star_point_pos) then None
           else Some a.(arg_star_point_pos);
         star_point_diameter :=
           if is_none a.(arg_star_point_diameter) then None
           else Some a.(arg_star_point_diameter);
         x_annotation := Some a.(arg_x_annotation);
         y_annotation := Some a.(arg_y_annotation);
         font_face := Some a.(arg_font_face);
         font_size := Some a.(arg_font_size)
       |}.
Proof.
  unfold new, __init__. cbn [bind Monad_stateful].
  pose proof (set_board_size_cases a.(arg_size) blank) as H1.
  destruct (Spec.grid_of a.(arg_size)) as [grid|];
    [rewrite H1 | destruct H1 as [m ->]; discriminate].
  pose proof (set_line_widths_cases a.(arg_line_widths) (set_size grid blank)) as H2.
  destruct a.(arg_line_widths) as [ | w ws ] eqn:Ew;
    [destruct H2 as [m ->]; discriminate|].
  destruct H2 as (thin & thick & -> & Hthin & Hthick).
  pose proof (set_line_spacing_cases a.(arg_line_spacing)
                (set_widths (thin, thick) (set_size grid blank))) as H3.
  destruct (float_pair_of a.(arg_line_spacing)) as [spacing|];
    [rewrite H3 | destruct H3 as [m ->]; discriminate].
  match goal with
  | |- context [set_border_spacing _ ?o] =>
      pose proof (set_border_spacing_cases a.(arg_border_spacing) o) as H4
  end.
  destruct (float_pair_of a.(arg_border_spacing)) as [border|];
    [rewrite H4 | destruct H4 as [m ->]; discriminate].
  unfold set_grid_annotation_style. cbn [bind Monad_stateful].
  destruct (py_in a.(arg_x_annotation) legal_values) eqn:Hx; [|discriminate].
  cbn [modify].
  destruct (py_in a.(arg_y_annotation) legal_values) eqn:Hy; [|discriminate].
  cbn [modify].
  unfold set_star_point_settings. cbn [bind Monad_stateful].
  intros H. exists grid, thin, thick, spacing, border.
  repeat (split; [first [reflexivity | assumption]|]).
  destruct (is_none a.(arg_star_point_pos)), (is_none a.(arg_star_point_diameter));
    cbn in H; injection H as <-; reflexivity.
Qed.

(** X2. [GobanMaker(...)] returns an object exactly when the size is an int
    or a pair of ints, the line widths are not empty, both spacings are a
    float or a pair of floats and both annotation styles are legal; the
    object then holds the grid, the spacings, styles and font as given, two
    of the given widths, and the star-point settings that are not [None]. *)
Theorem X2_constructor (a : init_args) :
  ((exists self, new a = Ok self)
   <-> (Spec.grid_of a.(arg_size) <> None
        /\ a.(arg_line_widths) <> []
        /\ float_pair_of a.(arg_line_spacing) <> None
        /\ float_pair_of a.(arg_border_spacing) <> None
        /\ py_in a.(arg_x_annotation) legal_values = true
        /\ py_in a.(arg_y_annotation) legal_values = true))
  /\ (forall self, new a = Ok self ->
      exists thin thick,
        In thin a.(arg_line_widths) /\ In thick a.(arg_line_widths)
        /\ self = {|
             size := Spec.grid_of a.(arg_size);
             line_widths := Some (thin, thick);
             line_spacing := float_pair_of a.(arg_line_spacing);
             border_spacing := float_pair_of a.(arg_border_spacing);
             star_point_pos :=
               if is_none a.(arg_star_point_pos) then None
               else Some a.(arg_star_point_pos);
             star_point_diameter :=
               if is_none a.(arg_star_point_diameter) then None
               else Some a.(arg_star_point_diameter);
             x_annotation := Some a.(arg_x_annotation);
             y_annotation := Some a.(arg_y_annotation);
             font_face := Some a.(arg_font_face);
             font_size := Some a.(arg_font_size)
           |}).
Proof.
  split; [split|].
  - intros [self Hnew].
    destruct (new_inversion a self Hnew)
      as (grid & thin & thick & sp & bd & Hg & Hthin & _ & Hs & Hb & Hx & Hy & _).
    rewrite Hg, Hs, Hb. repeat split; try discriminate; try assumption.
    intros E. rewrite E in Hthin. contradiction.
  - intros (Hg & Hw & Hs & Hb & Hx & Hy).
    unfold new, __init__. cbn [bind Monad_stateful].
    pose proof (set_board_size_cases a.(arg_size) blank) as H1.
    destruct (Spec.grid_of a.(arg_size)) as [grid|]; [rewrite H1 | contradiction].
    pose proof (set_line_widths_cases a.(arg_line_widths) (set_size grid blank)) as H2.
    destruct a.(arg_line_widths) as [ | w ws ]; [contradiction|].
    destruct H2 as (thin & thick & -> & _).
    match goal with
    | |- context [set_line_spacing _ ?o] =>
        pose proof (set_line_spacing_cases a.(arg_line_spacing) o) as H3
    end.
    destruct (float_pair_of a.(arg_line_spacing)) as [spacing|];
      [rewrite H3 | contradiction].
    match goal with
    | |- context [set_border_spacing _ ?o] =>
        pose proof (set_border_spacing_cases a.(arg_border_spacing) o) as H4
    end.
    destruct (float_pair_of a.(arg_border_spacing)) as [border|];
      [rewrite H4 | contradiction].
    unfold set_grid_annotation_style, set_star_point_settings.
    cbn [bind Monad_stateful]. rewrite Hx. cbn [modify]. rewrite Hy. cbn [modify].
    destruct (is_none a.(arg_star_point_pos)), (is_none a.(arg_star_point_diameter));
      eexists; reflexivity.
  - intros self Hnew.
    destruct (new_inversion a self Hnew)
      as (grid & thin & thick & sp & bd & Hg & Hthin & Hthick & Hs & Hb & _ & _ & E).
    exists thin, thick. rewrite Hg, Hs, Hb. auto.
Qed.

Lemma X2_constructor_witness :
  new default_args = Ok default_board
  /\ exists thin thick,
       In thin default_args.(arg_line_widths)
       /\ In thick default_args.(arg_line_widths)
       /\ default_board = {|
            size := Spec.grid_of default_args.(arg_size);
            line_widths := Some (thin, thick);
            line_spacing := float_pair_of default_args.(arg_line_spacing);
            border_spacing := float_pair_of default_args.(arg_border_spacing);
            star_point_pos :=
              if is_none default_args.(arg_star_point_pos) then None
              else Some default_args.(arg_star_point_pos);
            star_point_diameter :=
              if is_none default_args.(arg_star_point_diameter) then None
              else Some default_args.(arg_star_point_diameter);
            x_annotation := Some default_args.(arg_x_annotation);
            y_annotation := Some default_args.(arg_y_annotation);
            font_face := Some default_args.(arg_font_face);
            font_size := Some default_args.(arg_font_size)
          |}.
Proof.
  split; [vm_compute; reflexivity|].
  apply (proj2 (X2_constructor default_args) default_board).
  vm_compute. reflexivity.
Defined.

(** A construction with integer spacing, which the check refuses. *)
Example constructor_refuses_int_spacing :
  new {| arg_size := VInt 9;
         arg_line_widths := [PInt 1; PInt 2];
         arg_line_spacing := VTuple [VInt 22; VInt 23];
         arg_border_spacing := VFloat (float_lit 11 1);
         arg_star_point_diameter := VNone;
         arg_star_point_pos := VStr "auto";
         arg_x_annotation := None;
         arg_y_annotation := None;
         arg_font_face := VStr "Arial";
         arg_font_size := VInt 8 |}
  = Raise (ValueError "Parameter line_spacing must be a tuple of integers.").
Proof. reflexivity. Qed.

(** X3. A call of [set_board_size], [set_line_widths], [set_line_spacing] or
    [set_border_spacing] that raises leaves the object as it was, and so does
    [set_grid_annotation_style] when the x style is the illegal one; the
    three other setters never raise. *)
Theorem X3_failed_setter_changes_nothing (self self' : t) (e : exn) :
  (forall size, set_board_size size self = (self', Raise e) -> self' = self)
  /\ (forall line_widths', set_line_widths line_widths' self = (self', Raise e) ->
        self' = self)
  /\ (forall line_spacing, set_line_spacing line_spacing self = (self', Raise e) ->
        self' = self)
  /\ (forall border_spacing,
        set_border_spacing border_spacing self = (self', Raise e) -> self' = self)
  /\ (forall x y, py_in x legal_values = false ->
        set_grid_annotation_style x y self = (self', Raise e) -> self' = self)
  /\ (forall p d, set_star_point_settings p d self <> (self', Raise e))
  /\ (forall v, set_font_face v self <> (self', Raise e))
  /\ (forall v, set_font_size v self <> (self', Raise e)).
Proof.
  repeat split.
  - intros v H. pose proof (set_board_size_cases v self) as C.
    destruct (Spec.grid_of v); [rewrite C in H; discriminate|].
    destruct C as [m C]. rewrite C in H. congruence.
  - intros ws H. pose proof (set_line_widths_cases ws self) as C.
    destruct ws as [ | w ws ].
    + destruct C as [m C]. rewrite C in H. congruence.
    + destruct C as (lo & hi & C & _). rewrite C in H. discriminate.
  - intros v H. pose proof (set_line_spacing_cases v self) as C.
    destruct (float_pair_of v); [rewrite C in H; discriminate|].
    destruct C as [m C]. rewrite C in H. congruence.
  - intros v H. pose proof (set_border_spacing_cases v self) as C.
    destruct (float_pair_of v); [rewrite C in H; discriminate|].
    destruct C as [m C]. rewrite C in H. congruence.
  - intros x y Hx H. unfold set_grid_annotation_style in H. rewrite Hx in H.
    cbn in H. congruence.
  - intros p d. unfold set_star_point_settings. cbn [bind Monad_stateful].
    destruct (is_none p), (is_none d); discriminate.
  - intros v. discriminate.
  - intros v. discriminate.
Qed.

Lemma X3_failed_setter_changes_nothing_witness :
  set_line_widths [] default_board
    = (default_board, Raise (ValueError "min() arg is an empty sequence"))
  /\ default_board = default_board.
Proof.
  split; [reflexivity|].
  apply (proj1 (proj2 (X3_failed_setter_changes_nothing default_board default_board
                         (ValueError "min() arg is an empty sequence"))) []).
  reflexivity.
Defined.

(** Every setter keeps an object well formed, whether it raises or not. *)
Lemma perform_keeps_well_formed (c : setter_call) (self : t) :
  well_formed self -> well_formed (fst (perform c self)).
Proof.
  intros (Hsz & Hw & Hs & Hb & Hx & Hy & Hf & Hfs).
  destruct c as [ v | ws | p d | v | v | x y | v | v ]; cbn [perform].
  - pose proof (set_board_size_cases v self) as C.
    destruct (Spec.grid_of v); [rewrite C | destruct C as [m ->]];
      repeat split; try assumption; discriminate.
  - pose proof (set_line_widths_cases ws self) as C.
    destruct ws; [destruct C as [m ->] | destruct C as (lo & hi & -> & _)];
      repeat split; try assumption; discriminate.
  - unfold set_star_point_settings. cbn [bind Monad_stateful].
    destruct (is_none p), (is_none d); repeat split; assumption.
  - pose proof (set_line_spacing_cases v self) as C.
    destruct (float_pair_of v); [rewrite C | destruct C as [m ->]];
      repeat split; try assumption; discriminate.
  - pose proof (set_border_spacing_cases v self) as C.
    destruct (float_pair_of v); [rewrite C | destruct C as [m ->]];
      repeat split; try assumption; discriminate.
  - unfold set_grid_annotation_style. cbn [bind Monad_stateful].
    destruct (py_in x legal_values) eqn:Ex; destruct (py_in y legal_values) eqn:Ey;
      cbn; repeat split; try assumption; eexists; split; try reflexivity; assumption.
  - repeat split; try assumption; discriminate.
  - repeat split; try assumption; discriminate.
Qed.

Lemma new_well_formed (a : init_args) (self : t) :
  new a = Ok self -> well_formed self.
Proof.
  intros Hnew.
  destruct (new_inversion a self Hnew)
    as (grid & thin & thick & sp & bd & _ & _ & _ & _ & _ & Hx & Hy & ->).
  repeat split; try discriminate; eexists; split; try reflexivity; assumption.
Qed.

(** X4. Whatever setters are called on an object that the constructor has
    returned, in any order and whether they raise or not, the size, line
    widths, spacings and font stay assigned and both annotation styles stay
    among the four legal values. *)
Theorem X4_object_stays_well_formed (a : init_args) (self : t)
    (calls : list setter_call) :
  new a = Ok self -> well_formed (after calls self).
Proof.
  intros Hnew. apply new_well_formed in Hnew.
  revert self Hnew. unfold after.
  induction calls as [ | c calls IH ]; intros self Hwf; [exact Hwf|].
  cbn [fold_left]. apply IH, perform_keeps_well_formed, Hwf.
Qed.

Lemma X4_object_stays_well_formed_witness :
  new default_args = Ok default_board
  /\ well_formed
       (after [ Call_set_grid_annotation_style (Some "latin_letters")
                  (Some "roman_numerals");
                Call_set_line_spacing (VInt 22);
                Call_set_board_size (VInt 13) ] default_board).
Proof.
  split; [vm_compute; reflexivity|].
  apply (X4_object_stays_well_formed default_args). vm_compute. reflexivity.
Defined.

(* ===================================================================== *)
(** * Drawing only adds calls *)
(* ===================================================================== *)

Section Appending.

Context {C : Type}.

Lemma appending_ret {A} (a : A) : appending (ret a : stateful (list C) A).
Proof. intros made. cbn. rewrite app_nil_r. reflexivity. Qed.

Lemma appending_lift {A} (r : result A) : appending (lift r : stateful (list C) A).
Proof. intros made. cbn. rewrite app_nil_r. reflexivity. Qed.

Lemma appending_raise {A} (e : exn) : appending (raise e : stateful (list C) A).
Proof. intros made. cbn. rewrite app_nil_r. reflexivity. Qed.

Lemma appending_add (c : C) :
  appending (modify (fun made => made ++ [c]) : stateful (list C) unit).
Proof. intros made. reflexivity. Qed.

Lemma appending_bind {A B} (c : stateful (list C) A) (k : A -> stateful (list C) B) :
  appending c -> (forall a, appending (k a)) -> appending (bind c k).
Proof.
  intros Hc Hk made. cbn [bind Monad_stateful].
  rewrite (Hc made). destruct (c []) as [m1 [a|e] ]; cbn [fst snd].
  - rewrite (Hk a (made ++ m1)), (Hk a m1). cbn [app fst snd].
    rewrite app_assoc. reflexivity.
  - reflexivity.
Qed.

Lemma appending_for_each {A} (items : list A) (body : A -> stateful (list C) unit) :
  (forall x, appending (body x)) -> appending (for_each items body).
Proof.
  intros Hbody. induction items as [ | x items IH ]; cbn [for_each].
  - apply appending_ret.
  - apply appending_bind; [apply Hbody | intros _; exact IH].
Qed.

End Appending.

Lemma appending_annotating {A} (c : stateful context A) : appending (annotating c).
Proof.
  intros made. unfold annotating. destruct (c []) as [ops r]. reflexivity.
Qed.

Lemma appending_with_surface {A} (body : stateful canvas A) :
  appending body -> appending (with_surface body).
Proof.
  intros H made. unfold with_surface. rewrite (H made).
  destruct (body []) as [m r]. cbn [fst snd]. rewrite app_assoc. reflexivity.
Qed.

Ltac appending_step :=
  first
    [ apply appending_ret
    | apply appending_lift
    | apply appending_raise
    | apply appending_add
    | apply appending_annotating
    | apply appending_with_surface
    | apply appending_for_each; intros ?
    | apply appending_bind; [ | intros ? ]
    | match goal with
      | |- appending (if ?b then _ else _) => destruct b
      | |- appending (match ?x with _ => _ end) => destruct x
      end ].

Ltac appending_all := cbv zeta; repeat appending_step.

Lemma draw_grid_appending (self : t) : appending (_draw_grid self).
Proof. unfold _draw_grid, call. appending_all. Qed.

Lemma draw_star_points_appending (self : t) : appending (_draw_star_points self).
Proof. unfold _draw_star_points, draw_star_point, call. appending_all. Qed.

Lemma draw_border_appending (self : t) : appending (_draw_border self).
Proof. unfold _draw_border, call. appending_all. Qed.

Lemma draw_annotations_appending (an2cn : Z -> result string) (self : t) :
  appending (_draw_annotations an2cn self).
Proof. unfold _draw_annotations, _add_text, emit. appending_all. Qed.

(* ===================================================================== *)
(** * Rendering as a whole *)
(* ===================================================================== *)

Lemma rendering_appending (an2cn : Z -> result string) (self : t) :
  appending
    (call SetDocumentUnitMM ;;;
     call MakeContext ;;;
     _draw_grid self ;;;
     _draw_star_points self ;;;
     annotating (_draw_annotations an2cn self) ;;;
     _draw_border self).
Proof.
  apply appending_bind; [apply appending_add | intros _].
  apply appending_bind; [apply appending_add | intros _].
  apply appending_bind; [apply draw_grid_appending | intros _].
  apply appending_bind; [apply draw_star_points_appending | intros _].
  apply appending_bind; [apply appending_annotating | intros _].
  apply draw_border_appending.
Qed.

(** X5. [create_svg_file] makes no call to cairo at all when the board
    dimensions cannot be computed; otherwise its first call creates the
    surface for the given path with those dimensions and its last call
    leaves the surface, whether the drawing in between raised or not. *)
Theorem X5_surface_created_and_left (an2cn : Z -> result string)
    (file_path : string) (self : t) (made : canvas) :
  (forall e, _get_board_dimensions self = Raise e ->
     create_svg_file an2cn file_path self made = (made, Raise e))
  /\ (forall board, _get_board_dimensions self = Ok board ->
     exists drawing r,
       create_svg_file an2cn file_path self made =
         (made ++ SVGSurface file_path (fst board) (snd board)
               :: drawing ++ [SurfaceExit], r)).
Proof.
  split.
  - intros e He. unfold create_svg_file. cbn [bind Monad_stateful lift].
    rewrite He. reflexivity.
  - intros board Hb. unfold create_svg_file.
    set (body := with_surface _).
    cbn [bind Monad_stateful lift]. rewrite Hb. cbn [call modify].
    subst body. unfold with_surface.
    rewrite (rendering_appending an2cn self).
    match goal with
    | |- context [snd (?body [])] => destruct (body []) as [drawing r]
    end.
    exists drawing, r. cbn [fst snd]. rewrite <- !app_assoc. reflexivity.
Qed.

Lemma X5_surface_created_and_left_witness :
  _get_board_dimensions default_board =
    Ok (PFloat (float_lit 198 1), PFloat (float_lit 2136 10))
  /\ exists drawing r,
       create_svg_file an2cn_unused "goban.svg" default_board [] =
         ([] ++ SVGSurface "goban.svg"
                  (fst (PFloat (float_lit 198 1), PFloat (float_lit 2136 10)))
                  (snd (PFloat (float_lit 198 1), PFloat (float_lit 2136 10)))
               :: drawing ++ [SurfaceExit], r).
Proof.
  split; [vm_compute; reflexivity|].
  apply (proj2 (X5_surface_created_and_left an2cn_unused "goban.svg" default_board [])).
  vm_compute. reflexivity.
Defined.

Lemma with_surface_fails {A} (body : stateful canvas A) (made : canvas) :
  (exists made' e, body made = (made', Raise e)) ->
  exists made' e, with_surface body made = (made', Raise e).
Proof.
  intros (made' & e & H). unfold with_surface. rewrite H. eauto.
Qed.

(** Rendering fails whenever the star points cannot be drawn. *)
Lemma rendering_fails_with_star_points (an2cn : Z -> result string)
    (file_path : string) (self : t) :
  (forall made, exists made' e, _draw_star_points self made = (made', Raise e)) ->
  forall made, exists made' e,
    create_svg_file an2cn file_path self made = (made', Raise e).
Proof.
  intros Hstar made. unfold create_svg_file.
  apply lift_bind_fails. intros board _.
  apply bind_fails. intros made1 [] _.
  apply with_surface_fails.
  do 3 (apply bind_fails; intros ? [] _).
  apply bind_fails_first. apply Hstar.
Qed.

(** X6. With an int as [star_point_pos], which the docstring of
    [set_star_point_settings] offers, [_draw_star_points] raises [TypeError]
    before it draws any point, so that [create_svg_file] always fails. *)
Theorem X6_int_star_point_pos_fails (an2cn : Z -> result string)
    (file_path : string) (self : t) (n : Z) (made : canvas) :
  star_point_pos self = Some (VInt n) ->
  _draw_star_points self made =
    (made ++ [SetLineCapRound], Raise (TypeError "'int' object is not iterable"))
  /\ exists made' e, create_svg_file an2cn file_path self made = (made', Raise e).
Proof.
  intros Hpos.
  assert (H : forall made, _draw_star_points self made =
            (made ++ [SetLineCapRound],
             Raise (TypeError "'int' object is not iterable"))).
  { intros m. unfold _draw_star_points. rewrite Hpos. reflexivity. }
  split; [apply H|].
  apply rendering_fails_with_star_points. intros m. rewrite H. eauto.
Qed.

Lemma X6_int_star_point_pos_fails_witness :
  star_point_pos (fst (set_star_point_settings (VInt 2) VNone default_board))
    = Some (VInt 2)
  /\ _draw_star_points
       (fst (set_star_point_settings (VInt 2) VNone default_board)) [] =
       ([] ++ [SetLineCapRound], Raise (TypeError "'int' object is not iterable"))
  /\ exists made' e,
       create_svg_file an2cn_unused "goban.svg"
         (fst (set_star_point_settings (VInt 2) VNone default_board)) []
       = (made', Raise e).
Proof.
  split; [reflexivity|].
  apply (X6_int_star_point_pos_fails an2cn_unused "goban.svg"
           (fst (set_star_point_settings (VInt 2) VNone default_board)) 2 []).
  reflexivity.
Defined.

(** X7. An object built with [star_point_pos=None] has no attribute
    [star_point_pos]: the constructor returns it, but [_draw_star_points]
    raises [AttributeError] and [create_svg_file] fails. *)
Theorem X7_no_star_point_pos_attribute (an2cn : Z -> result string)
    (file_path : string) (a : init_args) (self : t) (made : canvas) :
  new a = Ok self ->
  a.(arg_star_point_pos) = VNone ->
  star_point_pos self = None
  /\ _draw_star_points self made =
       (made ++ [SetLineCapRound],
        Raise (AttributeError
                 "'GobanMaker' object has no attribute 'star_point_pos'"))
  /\ exists made' e, create_svg_file an2cn file_path self made = (made', Raise e).
Proof.
  intros Hnew Hnone.
  destruct (new_inversion a self Hnew)
    as (grid & thin & thick & sp & bd & _ & _ & _ & _ & _ & _ & _ & E).
  rewrite Hnone in E. cbn [is_none] in E.
  assert (Hpos : star_point_pos self = None) by (rewrite E; reflexivity).
  assert (H : forall made, _draw_star_points self made =
            (made ++ [SetLineCapRound],
             Raise (AttributeError
                      "'GobanMaker' object has no attribute 'star_point_pos'"))).
  { intros m. unfold _draw_star_points. rewrite Hpos. reflexivity. }
  split; [exact Hpos|]. split; [apply H|].
  apply rendering_fails_with_star_points. intros m. rewrite H. eauto.
Qed.

(** X8. The star-point diameter has no part in what is drawn: a call of
    [set_star_point_settings] that gives only a diameter leaves every call
    of [create_svg_file] as it was. *)
Theorem X8_star_point_diameter_unused (an2cn : Z -> result string)
    (file_path : string) (self : t) (star_point_diameter : value) (made : canvas) :
  create_svg_file an2cn file_path
    (fst (set_star_point_settings VNone star_point_diameter self)) made
  = create_svg_file an2cn file_path self made.
Proof.
  unfold set_star_point_settings. cbn [bind Monad_stateful is_none negb ret].
  destruct (is_none star_point_diameter); reflexivity.
Qed.

Lemma X7_no_star_point_pos_attribute_witness :
  new args_without_star_points = Ok board_without_star_points
  /\ args_without_star_points.(arg_star_point_pos) = VNone
  /\ star_point_pos board_without_star_points = None
  /\ _draw_star_points board_without_star_points [] =
       ([] ++ [SetLineCapRound],
        Raise (AttributeError
                 "'GobanMaker' object has no attribute 'star_point_pos'"))
  /\ exists made' e,
       create_svg_file an2cn_unused "goban.svg" board_without_star_points []
       = (made', Raise e).
Proof.
  split; [vm_compute; reflexivity|]. split; [reflexivity|].
  apply (X7_no_star_point_pos_attribute an2cn_unused "goban.svg"
           args_without_star_points board_without_star_points []);
    [vm_compute; reflexivity | reflexivity].
Defined.

(* ===================================================================== *)
(** * The grid *)
(* ===================================================================== *)

Lemma for_each_appends {C A} (items : list A) (body : A -> stateful (list C) unit)
    (f : A -> list C) :
  (forall x, In x items -> forall made, body x made = (made ++ f x, Ok tt)) ->
  forall made, for_each items body made = (made ++ flat_map f items, Ok tt).
Proof.
  induction items as [ | x items IH ]; intros Hbody made.
  - cbn. rewrite app_nil_r. reflexivity.
  - cbn [for_each bind Monad_stateful flat_map].
    rewrite (Hbody x (or_introl eq_refl)).
    rewrite IH by (intros y Hy; apply Hbody; right; exact Hy).
    rewrite app_assoc. reflexivity.
Qed.

Lemma range_inv (n i : Z) : In i (range n) -> 0 <= i < n.
Proof.
  unfold range. intros H. apply in_map_iff in H.
  destruct H as (k & <- & Hk). apply in_seq in Hk. lia.
Qed.


Lemma float_of_int_float_of (z : Z) (f : float) :
  float_of_int z = Ok f -> f = float_of z.
Proof.
  unfold float_of_int, float_of.
  destruct (binary_normalize prec emax z 0 false); congruence.
Qed.

(** An int from -1 to 1000 converts to a float. *)
Lemma float_of_int_ok (z : Z) : -1 <= z <= 1000 -> float_of_int z = Ok (float_of z).
Proof.
  intros Hz. destruct (float_of_int_small (z + 1) ltac:(lia)) as [f Hf].
  replace (z + 1 - 1) with z in Hf by lia.
  rewrite Hf. f_equal. apply float_of_int_float_of, Hf.
Qed.

Lemma int_times_float (z : Z) (f : float) :
  -1 <= z <= 1000 ->
  num_mul (PInt z) (PFloat f) = Ok (PFloat (SFmul prec emax (float_of z) f)).
Proof.
  intros Hz. cbn [num_mul to_float]. rewrite (float_of_int_ok z Hz). reflexivity.
Qed.

Lemma float_times_int (z : Z) (f : float) :
  -1 <= z <= 1000 ->
  num_mul (PFloat f) (PInt z) = Ok (PFloat (SFmul prec emax f (float_of z))).
Proof.
  intros Hz. cbn [num_mul to_float]. rewrite (float_of_int_ok z Hz). reflexivity.
Qed.





(** The calls of [_draw_grid] on a board of up to 1001 lines a side. *)
Lemma draw_grid_calls (self : t) (cols rows : Z) (thin thick : num)
    (spacing_x spacing_y border_x border_y : float) (made : canvas) :
  size self = Some (cols, rows) ->
  line_widths self = Some (thin, thick) ->
  line_spacing self = Some (spacing_x, spacing_y) ->
  border_spacing self = Some (border_x, border_y) ->
  0 <= cols <= 1001 -> 0 <= rows <= 1001 ->
  _draw_grid self made =
    (made ++ SetLineCapRound
       :: flat_map (fun i =>
            [ SetLineWidth (width_of_line cols thin thick i);
              MoveTo (on_line border_x spacing_x i) (PFloat border_y);
              LineTo (on_line border_x spacing_x i)
                     (on_line border_y spacing_y (rows - 1));
              Stroke ]) (range cols)
       ++ flat_map (fun i =>
            [ SetLineWidth (width_of_line rows thin thick i);
              MoveTo (PFloat border_x) (on_line border_y spacing_y i);
              LineTo (on_line border_x spacing_x (cols - 1))
                     (on_line border_y spacing_y i);
              Stroke ]) (range rows),
     Ok tt).
Proof.
  intros Hsize Hw Hs Hb Hc Hr.
  unfold _draw_grid. rewrite Hsize, Hw, Hs, Hb. cbv zeta.
  cbn [getattr lift call modify bind Monad_stateful fst snd].
  rewrite (int_times_float (rows - 1)) by lia.
  rewrite (int_times_float (cols - 1)) by lia.
  cbn [num_add to_float bind Monad_result].
  rewrite (for_each_appends _ _ (fun i =>
            [ SetLineWidth (width_of_line cols thin thick i);
              MoveTo (on_line border_x spacing_x i) (PFloat border_y);
              LineTo (on_line border_x spacing_x i)
                     (on_line border_y spacing_y (rows - 1));
              Stroke ])).
  2:{ intros i Hi m. apply range_inv in Hi.
      rewrite (int_times_float i) by lia.
      cbn [num_add to_float bind Monad_result Monad_stateful lift call modify
           getattr fst snd].
      unfold call, modify. rewrite <- !app_assoc. reflexivity. }
  rewrite (for_each_appends _ _ (fun i =>
            [ SetLineWidth (width_of_line rows thin thick i);
              MoveTo (PFloat border_x) (on_line border_y spacing_y i);
              LineTo (on_line border_x spacing_x (cols - 1))
                     (on_line border_y spacing_y i);
              Stroke ])).
  2:{ intros i Hi m. apply range_inv in Hi.
      rewrite (int_times_float i) by lia.
      cbn [num_add to_float bind Monad_result Monad_stateful lift call modify
           getattr fst snd].
      unfold call, modify. rewrite <- !app_assoc. reflexivity. }
  rewrite <- !app_assoc. reflexivity.
Qed.



(* ===================================================================== *)
(** * The star points *)
(* ===================================================================== *)

Lemma float_of_int_1 : float_of_int 1 = Ok (float_of 1).
Proof. reflexivity. Qed.

Lemma grid_position_computed (border spacing : float) (g : num) :
  placeable g ->
  (lines <- value_minus_int (value_of_num g) 1 ;;
   step <- num_mul (PFloat spacing) lines ;;
   num_add (PFloat border) step) = Ok (grid_position border spacing g).
Proof.
  intros Hg. destruct g as [z|f]; cbn [value_of_num value_minus_int num_sub placeable] in *.
  - cbn [bind Monad_result]. rewrite (float_times_int (z - 1)) by lia. reflexivity.
  - cbn [to_float bind Monad_result]. rewrite float_of_int_1. reflexivity.
Qed.

(** One star point: four calls, with the line width 4. *)
Lemma draw_star_point_calls (self : t) (p : point)
    (spacing_x spacing_y border_x border_y : float) (made : canvas) :
  line_spacing self = Some (spacing_x, spacing_y) ->
  border_spacing self = Some (border_x, border_y) ->
  placeable (fst p) -> placeable (snd p) ->
  draw_star_point self (tuple_of_point p) made =
    (made ++ [ SetLineWidth (PInt 4);
               MoveTo (grid_position border_x spacing_x (fst p))
                      (grid_position border_y spacing_y (snd p));
               LineTo (grid_position border_x spacing_x (fst p))
                      (grid_position border_y spacing_y (snd p));
               Stroke ], Ok tt).
Proof.
  intros Hs Hb Hx Hy. destruct p as [gx gy]. cbn [fst snd] in *.
  pose proof (grid_position_computed border_x spacing_x gx Hx) as Ex.
  pose proof (grid_position_computed border_y spacing_y gy Hy) as Ey.
  unfold draw_star_point, tuple_of_point. rewrite Hs, Hb.
  cbn [unpack_pair iterate lift getattr bind Monad_stateful fst snd].
  cbn [bind Monad_result] in Ex, Ey.
  destruct (value_minus_int (value_of_num gx) 1) as [lx|]; [|discriminate].
  destruct (num_mul (PFloat spacing_x) lx) as [sx|]; [|discriminate].
  rewrite Ex.
  destruct (value_minus_int (value_of_num gy) 1) as [ly|]; [|discriminate].
  destruct (num_mul (PFloat spacing_y) ly) as [sy|]; [|discriminate].
  rewrite Ey. unfold call, modify. rewrite <- !app_assoc. reflexivity.
Qed.

Lemma for_each_map_appends {C A B} (g : A -> B) (items : list A)
    (body : B -> stateful (list C) unit) (f : A -> list C) :
  (forall x, In x items -> forall made, body (g x) made = (made ++ f x, Ok tt)) ->
  forall made, for_each (map g items) body made = (made ++ flat_map f items, Ok tt).
Proof.
  induction items as [ | x items IH ]; intros Hbody made.
  - cbn. rewrite app_nil_r. reflexivity.
  - cbn [map for_each bind Monad_stateful flat_map].
    rewrite (Hbody x (or_introl eq_refl)).
    rewrite IH by (intros y Hy; apply Hbody; right; exact Hy).
    rewrite app_assoc. reflexivity.
Qed.

(** The calls of [_draw_star_points] for a list of points, given as
    [star_point_pos] or found by 'auto'. *)
Lemma draw_star_points_calls (self : t) (points : list point)
    (spacing_x spacing_y border_x border_y : float) (made : canvas) :
  star_point_pos self = Some (VList (map tuple_of_point points))
  \/ (star_point_pos self = Some (VStr "auto")
      /\ _get_auto_star_point_pos self = Ok points) ->
  line_spacing self = Some (spacing_x, spacing_y) ->
  border_spacing self = Some (border_x, border_y) ->
  Forall (fun p => placeable (fst p) /\ placeable (snd p)) points ->
  _draw_star_points self made =
    (made ++ SetLineCapRound
       :: flat_map (fun p =>
            [ SetLineWidth (PInt 4);
              MoveTo (grid_position border_x spacing_x (fst p))
                     (grid_position border_y spacing_y (snd p));
              LineTo (grid_position border_x spacing_x (fst p))
                     (grid_position border_y spacing_y (snd p));
              Stroke ]) points,
     Ok tt).
Proof.
  intros Hpos Hs Hb Hall.
  assert (Hloop : forall m,
            for_each (map tuple_of_point points) (draw_star_point self) m =
            (m ++ flat_map (fun p =>
                 [ SetLineWidth (PInt 4);
                   MoveTo (grid_position border_x spacing_x (fst p))
                          (grid_position border_y spacing_y (snd p));
                   LineTo (grid_position border_x spacing_x (fst p))
                          (grid_position border_y spacing_y (snd p));
                   Stroke ]) points, Ok tt)).
  { intros m. apply for_each_map_appends. intros p Hp m'.
    rewrite Forall_forall in Hall. destruct (Hall p Hp) as [Hx Hy].
    apply draw_star_point_calls; assumption. }
  unfold _draw_star_points.
  destruct Hpos as [Hpos | [Hpos Hauto] ]; rewrite Hpos.
  - cbn [getattr lift call modify bind Monad_stateful value_is_str ret iterate].
    rewrite Hloop. rewrite <- app_assoc. reflexivity.
  - rewrite Hauto.
    cbn [getattr lift call modify bind Monad_stateful value_is_str ret iterate].
    change (String.eqb "auto" "auto") with true. cbv iota.
    cbn [getattr lift call modify bind Monad_stateful value_is_str ret iterate].
    change (map (fun p => VTuple [value_of_num (fst p); value_of_num (snd p)]) points)
      with (map tuple_of_point points).
    rewrite Hloop. rewrite <- app_assoc. reflexivity.
Qed.



(* ===================================================================== *)
(** * The labels *)
(* ===================================================================== *)

Lemma int_minus_float (z : Z) (f : float) :
  -1 <= z <= 1000 ->
  num_sub (PInt z) (PFloat f) = Ok (PFloat (SFsub prec emax (float_of z) f)).
Proof.
  intros Hz. cbn [num_sub to_float]. rewrite (float_of_int_ok z Hz). reflexivity.
Qed.

Section Running.

Context {S : Type}.

Lemma run_lift {A B} (a : A) (k : A -> stateful S B) (s : S) :
  bind (lift (Ok a)) k s = k a s.
Proof. reflexivity. Qed.

Lemma run_ret {A B} (a : A) (k : A -> stateful S B) (s : S) :
  bind (ret a) k s = k a s.
Proof. reflexivity. Qed.

Lemma run_modify {B} (f : S -> S) (k : unit -> stateful S B) (s : S) :
  bind (modify f) k s = k tt (f s).
Proof. reflexivity. Qed.

Lemma run_assoc {A B D} (c : stateful S A) (k1 : A -> stateful S B)
    (k2 : B -> stateful S D) (s : S) :
  bind (bind c k1) k2 s = bind c (fun a => bind (k1 a) k2) s.
Proof. cbn [bind Monad_stateful]. destruct (c s) as [s' [a|e] ]; reflexivity. Qed.

Lemma run_bind {A B} (c : stateful S A) (k : A -> stateful S B) (s s' : S) (a : A) :
  c s = (s', Ok a) -> bind c k s = k a s'.
Proof. intros H. cbn [bind Monad_stateful]. rewrite H. reflexivity. Qed.


End Running.

Lemma float_times_float (a b : float) :
  num_mul (PFloat a) (PFloat b) = Ok (PFloat (SFmul prec emax a b)).
Proof. reflexivity. Qed.

Lemma float_plus_float (a b : float) :
  num_add (PFloat a) (PFloat b) = Ok (PFloat (SFadd prec emax a b)).
Proof. reflexivity. Qed.

Lemma float_minus_float (a b : float) :
  num_sub (PFloat a) (PFloat b) = Ok (PFloat (SFsub prec emax a b)).
Proof. reflexivity. Qed.

Ltac run :=
  repeat (first
            [ rewrite run_assoc
            | rewrite run_lift | rewrite run_ret | rewrite run_modify
            | rewrite float_times_float | rewrite float_plus_float
            | rewrite float_minus_float ];
          cbv beta iota; cbn [fst snd]).

(** The calls of [_draw_annotations] when every label that is asked for
    exists. *)
Lemma draw_annotations_calls (an2cn : Z -> result string) (self : t)
    (cols rows : Z) (x_style y_style : optstr) (x_label y_label : Z -> string)
    (spacing_x spacing_y border_x border_y : float) (face fsize : value)
    (made : context) :
  size self = Some (cols, rows) ->
  line_spacing self = Some (spacing_x, spacing_y) ->
  border_spacing self = Some (border_x, border_y) ->
  font_face self = Some face ->
  font_size self = Some fsize ->
  x_annotation self = Some x_style ->
  y_annotation self = Some y_style ->
  0 <= cols <= 1001 -> 0 <= rows <= 1001 ->
  (x_style <> None -> forall i, 0 <= i < cols ->
     _get_annotation_string an2cn i x_style = Ok (x_label i)) ->
  (y_style <> None -> forall i, 0 <= i < rows ->
     _get_annotation_string an2cn i y_style = Ok (y_label i)) ->
  let inner := SFsub prec emax (float_of 2) (float_lit 3 10) in
  let low border := PFloat (SFmul prec emax border (float_lit 3 10)) in
  let high border spacing n :=
    PFloat (SFadd prec emax (SFmul prec emax border inner)
              (SFmul prec emax (float_of (n - 1)) spacing)) in
  _draw_annotations an2cn self made =
    (made ++ SelectFontFace face :: SetFontSize fsize
       :: match x_style with
          | None => []
          | Some _ =>
              flat_map (fun i =>
                [ AddText (x_label i)
                    (on_line border_x spacing_x i, low border_y) (PFloat pi);
                  AddText (x_label i)
                    (on_line border_x spacing_x i, high border_y spacing_y rows)
                    (PInt 0) ]) (range cols)
          end
       ++ match y_style with
          | None => []
          | Some _ =>
              flat_map (fun h =>
                [ AddText (y_label (rows - h - 1))
                    (low border_x, on_line border_y spacing_y h)
                    (PFloat (float_lit 0 1));
                  AddText (y_label (rows - h - 1))
                    (high border_x spacing_x cols, on_line border_y spacing_y h)
                    (PFloat pi) ]) (range rows)
          end,
     Ok tt).
Proof.
  intros Hsize Hs Hb Hface Hfsize Hx Hy Hc Hr Hxl Hyl inner low high.
  assert (Hxloop : forall (style : string) y_lower y_upper m,
    x_style = Some style ->
    for_each (range cols) (fun vertical_lines =>
      s <- lift (_get_annotation_string an2cn vertical_lines (Some style)) ;;
      step <- lift (num_mul (PInt vertical_lines) (PFloat spacing_x)) ;;
      x_pos <- lift (num_add (PFloat border_x) step) ;;
      _add_text s (x_pos, y_lower) (PFloat pi) ;;;
      _add_text s (x_pos, y_upper) (PInt 0)) m
    = (m ++ flat_map (fun i =>
              [ AddText (x_label i) (on_line border_x spacing_x i, y_lower) (PFloat pi);
                AddText (x_label i) (on_line border_x spacing_x i, y_upper) (PInt 0) ])
              (range cols), Ok tt)).
  { intros style yl yu m E. apply for_each_appends. intros i Hi m'.
    apply range_inv in Hi. rewrite <- E, (Hxl ltac:(congruence) i Hi).
    rewrite (int_times_float i) by lia. unfold _add_text, emit. run.
    unfold modify. cbv beta. rewrite <- !app_assoc. reflexivity. }
  assert (Hyloop : forall (style : string) x_lower x_upper m,
    y_style = Some style ->
    for_each (range rows) (fun horizontal_lines =>
      s <- lift (_get_annotation_string an2cn (rows - horizontal_lines - 1)
                   (Some style)) ;;
      step <- lift (num_mul (PInt horizontal_lines) (PFloat spacing_y)) ;;
      y_pos <- lift (num_add (PFloat border_y) step) ;;
      _add_text s (x_lower, y_pos) (PFloat (float_lit 0 1)) ;;;
      _add_text s (x_upper, y_pos) (PFloat pi)) m
    = (m ++ flat_map (fun h =>
              [ AddText (y_label (rows - h - 1))
                  (x_lower, on_line border_y spacing_y h) (PFloat (float_lit 0 1));
                AddText (y_label (rows - h - 1))
                  (x_upper, on_line border_y spacing_y h) (PFloat pi) ])
              (range rows), Ok tt)).
  { intros style xl xu m E. apply for_each_appends. intros h Hh m'.
    apply range_inv in Hh.
    rewrite <- E, (Hyl ltac:(congruence) (rows - h - 1)) by lia.
    rewrite (int_times_float h) by lia. unfold _add_text, emit. run.
    unfold modify. cbv beta. rewrite <- !app_assoc. reflexivity. }
  unfold _draw_annotations. rewrite Hsize, Hs, Hb, Hface, Hfsize, Hx, Hy.
  cbv zeta. unfold getattr, emit. cbn [fst snd]. run.
  destruct x_style as [xs|]; destruct y_style as [ys|].
  - rewrite !(int_minus_float 2) by lia. run.
    rewrite (int_times_float (rows - 1)) by lia. run.
    erewrite run_bind by (apply Hxloop; reflexivity). run.
    rewrite (int_times_float (cols - 1)) by lia. run.
    rewrite (Hyloop ys) by reflexivity.
    rewrite <- !app_assoc. reflexivity.
  - rewrite !(int_minus_float 2) by lia. run.
    rewrite (int_times_float (rows - 1)) by lia. run.
    erewrite run_bind by (apply Hxloop; reflexivity). run.
    cbn [ret Monad_stateful]. rewrite <- !app_assoc. cbn [app].
    rewrite app_nil_r. reflexivity.
  - rewrite !(int_minus_float 2) by lia. run.
    rewrite (int_times_float (cols - 1)) by lia. run.
    rewrite (Hyloop ys) by reflexivity.
    rewrite <- !app_assoc. reflexivity.
  - run. cbn [ret Monad_stateful]. rewrite <- !app_assoc. reflexivity.
Qed.

(** X11. On a board of up to 1001 lines a side, when the labels of the
    annotated axes exist, [_draw_annotations] raises nothing and, after
    choosing the font and its size, hands each label to [_add_text] twice.
    First the columns in order: the label of column i sits at
    x = border_x + i*spacing_x, once at y = border_y*0.3 turned by pi and
    once at y = border_y*(2-0.3) + (rows-1)*spacing_y turned by 0.  Then the
    rows in order: the row at offset h has the label of index rows-h-1 and
    sits at y = border_y + h*spacing_y, once at x = border_x*0.3 turned by
    0.0 and once at x = border_x*(2-0.3) + (cols-1)*spacing_x turned by pi.
    An axis whose style is [None] gets no label. *)
Theorem X11_labels_drawn (an2cn : Z -> result string) (self : t)
    (cols rows : Z) (x_style y_style : optstr) (x_label y_label : Z -> string)
    (spacing_x spacing_y border_x border_y : float) (face fsize : value)
    (made : context) :
  size self = Some (cols, rows) ->
  line_spacing self = Some (spacing_x, spacing_y) ->
  border_spacing self = Some (border_x, border_y) ->
  font_face self = Some face ->
  font_size self = Some fsize ->
  x_annotation self = Some x_style ->
  y_annotation self = Some y_style ->
  0 <= cols <= 1001 -> 0 <= rows <= 1001 ->
  (x_style <> None -> forall i, 0 <= i < cols ->
     _get_annotation_string an2cn i x_style = Ok (x_label i)) ->
  (y_style <> None -> forall i, 0 <= i < rows ->
     _get_annotation_string an2cn i y_style = Ok (y_label i)) ->
  _draw_annotations an2cn self made =
    (made ++ SelectFontFace face :: SetFontSize fsize
       :: match x_style with
          | None => []
          | Some _ =>
              flat_map (fun i =>
                [ AddText (x_label i)
                    (on_line border_x spacing_x i, near_edge border_y)
                    (PFloat pi);
                  AddText (x_label i)
                    (on_line border_x spacing_x i, far_edge border_y spacing_y rows)
                    (PInt 0) ]) (range cols)
          end
       ++ match y_style with
          | None => []
          | Some _ =>
              flat_map (fun h =>
                [ AddText (y_label (rows - h - 1))
                    (near_edge border_x, on_line border_y spacing_y h)
                    (PFloat (float_lit 0 1));
                  AddText (y_label (rows - h - 1))
                    (far_edge border_x spacing_x cols, on_line border_y spacing_y h)
                    (PFloat pi) ]) (range rows)
          end,
     Ok tt).
Proof.
  intros Hsize Hs Hb Hface Hfsize Hx Hy Hc Hr Hxl Hyl.
  unfold near_edge, far_edge.
  apply (draw_annotations_calls an2cn self cols rows x_style y_style
           x_label y_label); assumption.
Qed.

(** A default board of 8 by 9 lines, lettered below and above and numbered
    at the sides. *)
Lemma X11_labels_drawn_witness :
  let board := set_y_annotation (Some "arabic_numerals") (lettered_board 8 9) in
  let letter i := String (ascii_of_nat (65 + Z.to_nat i)) "" in
  let number i := str_of_int (i + 1) in
  let spacing_x := float_lit 22 1 in
  let spacing_y := float_lit 237 10 in
  let border_x := float_lit 11 1 in
  let border_y := float_lit 12 1 in
  size board = Some (8, 9)
  /\ 0 <= 8 <= 1001 /\ 0 <= 9 <= 1001
  /\ _draw_annotations an2cn_unused board [] =
       ([] ++ SelectFontFace (VStr "Microsoft YaHei") :: SetFontSize (VInt 8)
          :: flat_map (fun i =>
               [ AddText (letter i)
                   (on_line border_x spacing_x i, near_edge border_y)
                   (PFloat pi);
                 AddText (letter i)
                   (on_line border_x spacing_x i, far_edge border_y spacing_y 9)
                   (PInt 0) ]) (range 8)
          ++ flat_map (fun h =>
               [ AddText (number (9 - h - 1))
                   (near_edge border_x, on_line border_y spacing_y h)
                   (PFloat (float_lit 0 1));
                 AddText (number (9 - h - 1))
                   (far_edge border_x spacing_x 8, on_line border_y spacing_y h)
                   (PFloat pi) ]) (range 9),
        Ok tt).
Proof.
  intros board letter number spacing_x spacing_y border_x border_y.
  split; [reflexivity|]. split; [lia|]. split; [lia|].
  apply (X11_labels_drawn an2cn_unused board 8 9
           (Some "latin_letters") (Some "arabic_numerals") letter number
           spacing_x spacing_y border_x border_y
           (VStr "Microsoft YaHei") (VInt 8) []);
    try reflexivity; try lia.
  intros _ i Hi.
  assert (H : i = 0 \/ i = 1 \/ i = 2 \/ i = 3 \/ i = 4 \/ i = 5 \/ i = 6
                \/ i = 7) by lia.
  repeat (destruct H as [-> | H]; [reflexivity|]). subst. reflexivity.
Defined.

(* ===================================================================== *)
(** * What drawing the annotations can raise *)
(* ===================================================================== *)

Section RaisesOnly.

Context {S : Type} (P : exn -> Prop).

Lemma raises_only_ret {A} (a : A) : raises_only P (ret a : stateful S A).
Proof. intros s s' e H. discriminate H. Qed.

Lemma raises_only_modify (f : S -> S) : raises_only P (modify f).
Proof. intros s s' e H. discriminate H. Qed.

Lemma raises_only_bind {A B} (c : stateful S A) (k : A -> stateful S B) :
  raises_only P c -> (forall a, raises_only P (k a)) -> raises_only P (bind c k).
Proof.
  intros Hc Hk s s' e. cbn [bind Monad_stateful].
  destruct (c s) as [s1 [a|e1] ] eqn:E.
  - apply Hk.
  - intros [= <- <-]. apply (Hc _ _ _ E).
Qed.

Lemma raises_only_bind_ok {A B} (a : A) (k : A -> stateful S B) :
  raises_only P (k a) -> raises_only P (bind (lift (Ok a)) k).
Proof. intros Hk s s' e. apply Hk. Qed.

Lemma raises_only_bind_lift {A B} (r : result A) (k : A -> stateful S B) :
  (forall e, r = Raise e -> P e) ->
  (forall a, r = Ok a -> raises_only P (k a)) ->
  raises_only P (bind (lift r) k).
Proof.
  intros Hr Hk s s' e. cbn [bind Monad_stateful lift].
  destruct r as [a|e1].
  - apply (Hk a eq_refl).
  - intros [= <- <-]. apply Hr. reflexivity.
Qed.

Lemma raises_only_for_each {A} (items : list A) (body : A -> stateful S unit) :
  (forall x, In x items -> raises_only P (body x)) ->
  raises_only P (for_each items body).
Proof.
  induction items as [ | x items IH ]; intros Hbody; cbn [for_each].
  - apply raises_only_ret.
  - apply raises_only_bind.
    + apply Hbody. left. reflexivity.
    + intros _. apply IH. intros y Hy. apply Hbody. right. exact Hy.
Qed.

End RaisesOnly.

Lemma to_float_overflow (x : num) (e : exn) : to_float x = Raise e -> is_overflow e.
Proof.
  destruct x as [z|f]; cbn [to_float]; [|discriminate].
  unfold float_of_int. destruct (binary_normalize prec emax z 0 false);
    try discriminate. intros [= <-]. eexists. reflexivity.
Qed.

Lemma float_op_overflow (op : float -> float -> float) (x y : num) (e : exn) :
  (a <- to_float x ;; b <- to_float y ;; Ok (PFloat (op a b))) = Raise e ->
  is_overflow e.
Proof.
  cbn [bind Monad_result].
  destruct (to_float x) as [a|e1] eqn:Ex.
  - destruct (to_float y) as [b|e2] eqn:Ey; [discriminate|].
    intros [= <-]. apply (to_float_overflow y), Ey.
  - intros [= <-]. apply (to_float_overflow x), Ex.
Qed.

Lemma num_mul_overflow (x y : num) (e : exn) :
  num_mul x y = Raise e -> is_overflow e.
Proof.
  destruct x, y; cbn [num_mul]; try discriminate; apply float_op_overflow.
Qed.

Lemma num_add_overflow (x y : num) (e : exn) :
  num_add x y = Raise e -> is_overflow e.
Proof.
  destruct x, y; cbn [num_add]; try discriminate; apply float_op_overflow.
Qed.

Lemma num_sub_overflow (x y : num) (e : exn) :
  num_sub x y = Raise e -> is_overflow e.
Proof.
  destruct x, y; cbn [num_sub]; try discriminate; apply float_op_overflow.
Qed.

Lemma legal_style_cases (style : optstr) :
  py_in style legal_values = true ->
  style = None \/ style = Some "arabic_numerals"
  \/ style = Some "chinese_numerals" \/ style = Some "latin_letters".
Proof.
  unfold py_in, legal_values. cbn [existsb]. rewrite !orb_true_iff.
  destruct style as [name|]; [|auto]. cbn [optstr_eqb].
  rewrite !String.eqb_eq. intros [H | [H | [H | [H | H] ] ] ];
    try discriminate; subst; auto.
Qed.

Lemma str_index_raises (s : string) (index : Z) (e : exn) :
  str_index s index = Raise e -> exists msg, e = IndexError msg.
Proof.
  unfold str_index. cbv zeta.
  destruct (_ || _); [intros [= <-]; eauto|].
  destruct (get _ s); [discriminate | intros [= <-]; eauto].
Qed.

Lemma label_failure (an2cn : Z -> result string) (index : Z) (style : optstr)
    (e : exn) :
  style <> None ->
  py_in style legal_values = true ->
  _get_annotation_string an2cn index style = Raise e ->
  annotation_failure an2cn e.
Proof.
  intros Hsome Hlegal.
  destruct (legal_style_cases style Hlegal) as [-> | [-> | [-> | ->] ] ].
  - contradiction.
  - discriminate.
  - intros H. right. right. exists (index + 1). exact H.
  - rewrite latin_label. intros H. left. apply (str_index_raises _ _ _ H).
Qed.

Ltac overflow_leaf :=
  match goal with
  | H : num_mul _ _ = Raise _ |- _ => right; left; apply (num_mul_overflow _ _ _ H)
  | H : num_add _ _ = Raise _ |- _ => right; left; apply (num_add_overflow _ _ _ H)
  | H : num_sub _ _ = Raise _ |- _ => right; left; apply (num_sub_overflow _ _ _ H)
  end.

Ltac raises_step :=
  cbv beta; cbn [fst snd];
  lazymatch goal with
  | |- raises_only _ (ret _) => apply raises_only_ret
  | |- raises_only _ (modify _) => apply raises_only_modify
  | |- raises_only _ (bind (lift (Ok _)) _) => apply raises_only_bind_ok; cbv beta
  | |- raises_only _ (bind (lift _) _) =>
      apply raises_only_bind_lift; [ intros ? ?; overflow_leaf | intros ? _ ]
  | |- raises_only _ (bind (modify _) _) =>
      apply raises_only_bind; [ apply raises_only_modify | intros _ ]
  end.

(** X12. On an object whose attributes are set and whose styles are legal,
    as every object is that the constructor returned and setters changed,
    and whose board has fewer than 10^4300 lines a side, so that every line
    number is within the digits that [str] converts, [_draw_annotations]
    never raises [AttributeError], nor the [ValueError] of an unknown style:
    it raises at most the [IndexError] of a letter beyond the 25th, an
    [OverflowError] of a conversion to float, or what [cn2an.an2cn]
    raises. *)
Theorem X12_annotation_failures (an2cn : Z -> result string) (self : t)
    (cols rows : Z) (made made' : context) (e : exn) :
  well_formed self ->
  size self = Some (cols, rows) ->
  cols < 10 ^ 4300 -> rows < 10 ^ 4300 ->
  _draw_annotations an2cn self made = (made', Raise e) ->
  annotation_failure an2cn e.
Proof.
  intros (_ & _ & Hs & Hb & (xs & Hx & Hxl) & (ys & Hy & Hyl) & Hf & Hfs)
         Esz _ _.
  unfold is_set in *. set (sz := (cols, rows)) in Esz.
  destruct (line_spacing self) as [sp|] eqn:Esp; [|contradiction].
  destruct (border_spacing self) as [bd|] eqn:Ebd; [|contradiction].
  destruct (font_face self) as [face|] eqn:Eface; [|contradiction].
  destruct (font_size self) as [fsize|] eqn:Efsize; [|contradiction].
  revert made made' e.
  change (raises_only (annotation_failure an2cn) (_draw_annotations an2cn self)).
  unfold _draw_annotations. rewrite Esz, Esp, Ebd, Eface, Efsize, Hx, Hy.
  cbv zeta. unfold getattr, _add_text, emit.
  do 5 raises_step.
  apply raises_only_bind.
  - destruct xs as [xname|]; [|apply raises_only_ret].
    do 8 raises_step.
    apply raises_only_for_each. intros i _.
    apply raises_only_bind_lift.
    + intros e He. apply (label_failure an2cn i (Some xname) e); [discriminate | |];
        assumption.
    + intros label _. repeat raises_step.
  - intros _. raises_step.
    destruct ys as [yname|]; [|apply raises_only_ret].
    do 8 raises_step.
    apply raises_only_for_each. intros h _.
    apply raises_only_bind_lift.
    + intros e He.
      apply (label_failure an2cn (snd sz - h - 1) (Some yname) e);
        [discriminate | |]; assumption.
    + intros label _. repeat raises_step.
Qed.

Lemma X12_annotation_failures_witness :
  well_formed (lettered_board 26 9)
  /\ size (lettered_board 26 9) = Some (26, 9)
  /\ 26 < 10 ^ 4300 /\ 9 < 10 ^ 4300
  /\ _draw_annotations an2cn_unused (lettered_board 26 9) [] =
       (fst (_draw_annotations an2cn_unused (lettered_board 26 9) []),
        Raise (IndexError "string index out of range"))
  /\ annotation_failure an2cn_unused (IndexError "string index out of range").
Proof.
  assert (Hwf : well_formed (lettered_board 26 9)).
  { repeat split; try discriminate; eexists; split; reflexivity. }
  assert (Hrun : _draw_annotations an2cn_unused (lettered_board 26 9) [] =
       (fst (_draw_annotations an2cn_unused (lettered_board 26 9) []),
        Raise (IndexError "string index out of range"))).
  { vm_compute. reflexivity. }
  assert (Hcols : 26 < 10 ^ 4300) by (vm_compute; reflexivity).
  assert (Hrows : 9 < 10 ^ 4300) by (vm_compute; reflexivity).
  split; [exact Hwf|]. split; [reflexivity|].
  split; [exact Hcols|]. split; [exact Hrows|]. split; [exact Hrun|].
  apply (X12_annotation_failures an2cn_unused (lettered_board 26 9) 26 9 [] _ _
           Hwf eq_refl Hcols Hrows Hrun).
Defined.

(* ===================================================================== *)
(** * Rendering an ordinary board *)
(* ===================================================================== *)

(** The middle line is a float: it comes from a true division. *)
Lemma middle_pos_float (n : Z) (y : num) :
  middle_pos n = Ok y -> exists f, y = PFloat f.
Proof.
  unfold middle_pos. cbn [num_sub num_truediv bind Monad_result].
  destruct (int_truediv (n - 1) 2) as [half|e]; [|discriminate].
  cbn [bind Monad_result num_add to_float]. rewrite float_of_int_1.
  cbn [bind Monad_result]. intros [= <-]. eauto.
Qed.

(** The points of 'auto' can be placed on every board of up to 1001 lines
    a side. *)
Lemma auto_star_points_placeable (self : t) (cols rows : Z) :
  size self = Some (cols, rows) ->
  0 <= cols <= 1001 -> 0 <= rows <= 1001 ->
  exists points,
    _get_auto_star_point_pos self = Ok points
    /\ Forall (fun p => placeable (fst p) /\ placeable (snd p)) points.
Proof.
  intros Hsize Hc Hr.
  assert (Hmid : forall n, 0 <= n <= 1001 -> Z.odd n = true ->
            exists f, middle_pos n = Ok (PFloat f)).
  { intros n Hn Hodd. destruct (mid_exact_small n Hn Hodd) as (y & E & _).
    rewrite <- middle_pos_mid in E.
    destruct (middle_pos_float n y E) as [f ->]. eauto. }
  unfold _get_auto_star_point_pos. rewrite Hsize.
  cbn [getattr bind Monad_result fst snd].
  rewrite !is_odd_spec.
  destruct (Z.leb_spec 3 cols); [|eexists; split; [reflexivity | constructor] ].
  destruct (Z.leb_spec 3 rows); [|eexists; split; [reflexivity | constructor] ].
  cbn [andb app].
  destruct (Z.odd cols) eqn:Oc; destruct (Z.odd rows) eqn:Or; cbn [andb];
    try (destruct (Hmid cols Hc Oc) as [x ->]);
    try (destruct (Hmid rows Hr Or) as [y ->]);
    cbn [bind Monad_result app]; eexists; (split; [reflexivity|]);
    repeat (constructor; [split; cbn [fst snd placeable]; first [exact I | lia]|]);
    constructor.
Qed.

(** The labels of a style that has them for the lines 0 to n-1. *)
Lemma labels_exist (an2cn : Z -> result string) (style : optstr) (n : Z) :
  labelled style n ->
  exists label : Z -> string,
    style <> None -> forall i, 0 <= i < n ->
    _get_annotation_string an2cn i style = Ok (label i).
Proof.
  intros [-> | [-> | [-> Hn] ] ].
  - exists (fun _ => EmptyString). intros H. contradiction.
  - exists (fun i => str_of_int (i + 1)). intros _ i _. reflexivity.
  - exists (fun i => match str_index "ABCDEFGHJKLMNOPQRSTUVWXYZ" i with
                     | Ok label => label
                     | Raise _ => EmptyString
                     end).
    intros _ i Hi.
    destruct (latin_label_in_range an2cn i ltac:(lia)) as (label & _ & E).
    rewrite E. rewrite latin_label in E. rewrite E. reflexivity.
Qed.

(** A thick width that is a float, or an int from 0 to 1001, is halved and
    converted without error. *)
Lemma thick_width_halved (thick : num) :
  placeable thick ->
  exists half t,
    num_truediv thick (PInt 2) = Ok (PFloat half) /\ to_float thick = Ok t.
Proof.
  destruct thick as [z|f]; cbn [placeable]; intros Hz.
  - assert (H : forallb (fun z => is_ok (int_truediv z 2) && is_ok (float_of_int z))
                  (range 1002) = true) by (vm_compute; reflexivity).
    rewrite forallb_forall in H. specialize (H z (in_range 1002 z ltac:(lia))).
    cbv beta in H. apply andb_prop in H. destruct H as [H1 H2].
    cbn [num_truediv to_float].
    destruct (int_truediv z 2) as [half|]; [|discriminate].
    destruct (float_of_int z) as [t|]; [|discriminate].
    exists half, t. split; reflexivity.
  - exists (SFdiv prec emax f (float_of 2)), f. split; reflexivity.
Qed.

Lemma float_over_int (a : float) (k : Z) :
  1 <= k <= 1000 -> float_is_zero (float_of k) = false ->
  num_truediv (PFloat a) (PInt k) = Ok (PFloat (SFdiv prec emax a (float_of k))).
Proof.
  intros Hk Hz. cbn [num_truediv to_float bind Monad_result].
  rewrite (float_of_int_ok k) by lia. cbn [bind Monad_result].
  rewrite Hz. reflexivity.
Qed.

Lemma float_minus_num (a t : float) (y : num) :
  to_float y = Ok t -> num_sub (PFloat a) y = Ok (PFloat (SFsub prec emax a t)).
Proof.
  intros H. destruct y as [z|f]; cbn [num_sub to_float bind Monad_result] in *.
  - rewrite H. reflexivity.
  - injection H as ->. reflexivity.
Qed.

(** The border is drawn without error. *)
Lemma draw_border_returns (self : t) (cols rows : Z) (thin thick : num)
    (spacing_x spacing_y border_x border_y : float) :
  size self = Some (cols, rows) ->
  line_widths self = Some (thin, thick) ->
  line_spacing self = Some (spacing_x, spacing_y) ->
  border_spacing self = Some (border_x, border_y) ->
  0 <= cols <= 1001 -> 0 <= rows <= 1001 ->
  placeable thick ->
  exists drawn, _draw_border self [] = (drawn, Ok tt).
Proof.
  intros Hsize Hw Hs Hb Hc Hr Hthick.
  destruct (board_dimensions_returns_small self cols rows _ _ _ _ Hsize Hs Hb Hc Hr)
    as (w & h & Hdims).
  destruct (thick_width_halved thick Hthick) as (half & t & Hhalf & Ht).
  unfold _draw_border. rewrite Hw, Hs, Hdims. unfold getattr, call.
  cbn [fst snd]. run. rewrite Hhalf. run.
  rewrite !(float_minus_num _ t thick Ht). run.
  rewrite !(float_over_int _ 3) by (first [lia | reflexivity]). run.
  rewrite !(int_times_float 3) by lia. run.
  rewrite !(float_over_int _ 2) by (first [lia | reflexivity]). run.
  eexists. reflexivity.
Qed.

(** A method that adds its calls and returns, run after other calls. *)
Lemma appending_returns {C A} (c : stateful (list C) A) (drawn made : list C) (a : A) :
  appending c -> c [] = (drawn, Ok a) -> c made = (made ++ drawn, Ok a).
Proof. intros Happ H. rewrite (Happ made), H. reflexivity. Qed.

(** The calls of a rendering whose four drawing methods return. *)
Lemma rendering_composed (an2cn : Z -> result string) (file_path : string)
    (self : t) (board : point) (grid stars border : canvas) (labels : context)
    (made : canvas) :
  _get_board_dimensions self = Ok board ->
  _draw_grid self [] = (grid, Ok tt) ->
  _draw_star_points self [] = (stars, Ok tt) ->
  _draw_annotations an2cn self [] = (labels, Ok tt) ->
  _draw_border self [] = (border, Ok tt) ->
  create_svg_file an2cn file_path self made =
    (made ++ SVGSurface file_path (fst board) (snd board)
       :: SetDocumentUnitMM :: MakeContext
       :: grid ++ stars ++ map Annotation labels ++ border ++ [SurfaceExit],
     Ok tt).
Proof.
  intros Hdims Hg Hs Hl Hb.
  unfold create_svg_file. rewrite Hdims. unfold call at 1. run.
  unfold with_surface, call. run.
  erewrite run_bind
    by (apply appending_returns; [apply draw_grid_appending | exact Hg]).
  erewrite run_bind
    by (apply appending_returns; [apply draw_star_points_appending | exact Hs]).
  erewrite run_bind
    by (unfold annotating; rewrite Hl; reflexivity).
  rewrite (appending_returns _ border _ tt (draw_border_appending self) Hb).
  rewrite <- !app_assoc. reflexivity.
Qed.

(** X13. Rendering an ordinary board raises nothing: on an object with up
    to 1001 lines a side, a thick line width that is a float or an int from
    0 to 1001, star points that are 'auto' or a list of pairs of such
    numbers, and annotation styles [None], 'arabic_numerals' or
    'latin_letters' on at most 25 lines, the board dimensions and the four
    drawing methods are computed without error, and [create_svg_file] makes
    the calls of the grid, of the star points, of the labels and of the
    border, in this order, between creating the surface and leaving it. *)
Theorem X13_ordinary_board_is_rendered (an2cn : Z -> result string)
    (file_path : string) (self : t) (made : canvas) :
  ordinary self ->
  exists board grid stars labels border,
    _get_board_dimensions self = Ok board
    /\ _draw_grid self [] = (grid, Ok tt)
    /\ _draw_star_points self [] = (stars, Ok tt)
    /\ _draw_annotations an2cn self [] = (labels, Ok tt)
    /\ _draw_border self [] = (border, Ok tt)
    /\ create_svg_file an2cn file_path self made =
         (made ++ SVGSurface file_path (fst board) (snd board)
            :: SetDocumentUnitMM :: MakeContext
            :: grid ++ stars ++ map Annotation labels ++ border ++ [SurfaceExit],
          Ok tt).
Proof.
  intros (cols & rows & thin & thick & x_style & y_style & Hsize & Hc & Hr & Hw
          & Hthick & Hs & Hb & Hstar & Hx & Hxl & Hy & Hyl & Hface & Hfsize).
  unfold is_set in *.
  destruct (line_spacing self) as [ [spacing_x spacing_y] | ] eqn:Es;
    [|contradiction].
  destruct (border_spacing self) as [ [border_x border_y] | ] eqn:Eb;
    [|contradiction].
  destruct (font_face self) as [face|] eqn:Eface; [|contradiction].
  destruct (font_size self) as [fsize|] eqn:Efsize; [|contradiction].
  destruct (board_dimensions_returns_small self cols rows _ _ _ _ Hsize Es Eb Hc Hr)
    as (w & h & Hdims).
  pose proof (draw_grid_calls self cols rows thin thick _ _ _ _ [] Hsize Hw Es Eb
                Hc Hr) as Hgrid.
  assert (Hstars : exists stars, _draw_star_points self [] = (stars, Ok tt)).
  { destruct Hstar as [Hauto | (points & Hpos & Hall)].
    - destruct (auto_star_points_placeable self cols rows Hsize Hc Hr)
        as (points & Epoints & Hall).
      eexists.
      apply (draw_star_points_calls self points spacing_x spacing_y border_x
               border_y []); auto.
    - eexists.
      apply (draw_star_points_calls self points spacing_x spacing_y border_x
               border_y []); auto. }
  destruct Hstars as [stars Hstars].
  destruct (labels_exist an2cn x_style cols Hxl) as [x_label Hxlabel].
  destruct (labels_exist an2cn y_style rows Hyl) as [y_label Hylabel].
  pose proof (draw_annotations_calls an2cn self cols rows x_style y_style
                x_label y_label _ _ _ _ face fsize [] Hsize Es Eb Eface Efsize
                Hx Hy Hc Hr Hxlabel Hylabel) as Hlabels.
  cbv zeta in Hlabels.
  destruct (draw_border_returns self cols rows thin thick _ _ _ _ Hsize Hw Es Eb
              Hc Hr Hthick) as [border Hborder].
  eexists. eexists. exists stars. eexists. exists border.
  split; [exact Hdims|]. split; [exact Hgrid|]. split; [exact Hstars|].
  split; [exact Hlabels|]. split; [exact Hborder|].
  apply (rendering_composed an2cn file_path self _ _ _ _ _ made Hdims Hgrid Hstars
           Hlabels Hborder).
Qed.

Lemma X13_ordinary_board_is_rendered_witness :
  ordinary default_board
  /\ exists board grid stars labels border,
       _get_board_dimensions default_board = Ok board
       /\ _draw_grid default_board [] = (grid, Ok tt)
       /\ _draw_star_points default_board [] = (stars, Ok tt)
       /\ _draw_annotations an2cn_unused default_board [] = (labels, Ok tt)
       /\ _draw_border default_board [] = (border, Ok tt)
       /\ create_svg_file an2cn_unused "goban.svg" default_board [] =
            ([] ++ SVGSurface "goban.svg" (fst board) (snd board)
               :: SetDocumentUnitMM :: MakeContext
               :: grid ++ stars ++ map Annotation labels ++ border ++ [SurfaceExit],
             Ok tt).
Proof.
  assert (H : ordinary default_board).
  { exists 9, 9, (PFloat (float_lit 1 1)), (PFloat (float_lit 2 1)), None, None.
    repeat split; try reflexivity; try lia; try discriminate;
      try (left; reflexivity). }
  split; [exact H|].
  apply (X13_ordinary_board_is_rendered an2cn_unused "goban.svg" default_board [] H).
Defined.

(* ===================================================================== *)
(** * Rendering more than 25 lettered columns *)
(* ===================================================================== *)







(* ===================================================================== *)
(** * What a setter leaves alone *)
(* ===================================================================== *)

Ltac frame :=
  unfold same_except; cbn [fst];
  repeat split; first [ right; reflexivity | left; cbn [In]; auto ].

(** One call: the attributes of the other setters stay as they were. *)
Lemma perform_frame (c : setter_call) (self : t) :
  same_except (assigned c) self (fst (perform c self)).
Proof.
  destruct c as [ v | ws | p d | v | v | x y | v | v ]; cbn [perform assigned].
  - pose proof (set_board_size_cases v self) as C.
    destruct (Spec.grid_of v); [rewrite C | destruct C as [m ->] ]; frame.
  - pose proof (set_line_widths_cases ws self) as C.
    destruct ws; [destruct C as [m ->] | destruct C as (lo & hi & -> & _)]; frame.
  - unfold set_star_point_settings. cbn [bind Monad_stateful].
    destruct (is_none p), (is_none d); frame.
  - pose proof (set_line_spacing_cases v self) as C.
    destruct (float_pair_of v); [rewrite C | destruct C as [m ->] ]; frame.
  - pose proof (set_border_spacing_cases v self) as C.
    destruct (float_pair_of v); [rewrite C | destruct C as [m ->] ]; frame.
  - unfold set_grid_annotation_style. cbn [bind Monad_stateful].
    destruct (py_in x legal_values); destruct (py_in y legal_values); frame.
  - frame.
  - frame.
Qed.

Lemma same_except_trans (first later : list string) (a b c : t) :
  same_except first a b -> same_except later b c ->
  same_except (first ++ later) a c.
Proof.
  unfold same_except. intros H1 H2.
  repeat match goal with
         | H : _ /\ _ |- _ => destruct H
         end.
  repeat split;
    match goal with
    | H1 : In ?n first \/ ?f a = ?f b, H2 : In ?n later \/ ?f b = ?f c
      |- In ?n (first ++ later) \/ ?f a = ?f c =>
        destruct H1 as [H1|H1]; [left; apply in_or_app; left; exact H1|];
        destruct H2 as [H2|H2]; [left; apply in_or_app; right; exact H2|];
        right; congruence
    end.
Qed.

(** X15. A setter changes no attribute but its own, whether it returns or
    raises: after any sequence of setter calls, every attribute that none of
    the calls assigns is as it was before.  [set_board_size], for one, never
    touches the star points or the annotation styles. *)
Theorem X15_setters_keep_other_attributes (calls : list setter_call) (self : t) :
  same_except (flat_map assigned calls) self (after calls self).
Proof.
  unfold after. revert self.
  induction calls as [ | c calls IH ]; intros self.
  - cbn [flat_map fold_left]. unfold same_except. repeat split; right; reflexivity.
  - cbn [flat_map fold_left].
    apply (same_except_trans _ _ self (fst (perform c self))).
    + apply perform_frame.
    + apply IH.
Qed.
